(** * white-shark: a shallow embedding of the market-data core

    Binance SBE decoding (src/exchanges/binance/sbe), the imbalance detector,
    the Kalshi order-book mutations (src/event_processor.rs and
    src/exchanges/kalshi/client.rs) and the imbalance-alert gate of the event
    processor.  Rust [f64] values are the kernel's primitive binary64 floats;
    Rust integers are [Z] with their width written out. *)

From Stdlib Require Import ZArith Bool Lia Ascii PrimFloat Uint63 FloatOps.
From Stdlib Require String.
From stdpp Require Import base gmap strings list pretty.

Local Set Warnings "-inexact-float".
Local Open Scope Z_scope.

(* ===================================================================== *)
(** * Results and errors ([crate::error]) *)

(** The error kinds that the modelled code can produce.  Error messages are
    elided: no claim depends on their text. *)
Inductive error :=
  | SbeDecode            (** [Error::SbeDecode(_)] *)
  | IoUnexpectedEof      (** [std::io::Error] from a short [Cursor] read *)
  | WebSocket            (** [Error::WebSocket(_)] *)
  | ArithPanic.          (** an arithmetic-overflow panic (debug build) *)

Inductive result (A : Type) :=
  | Ok (a : A)
  | Err (e : error).
Arguments Ok {A} a.
Arguments Err {A} e.

Definition bind {A B} (m : result A) (k : A -> result B) : result B :=
  match m with Ok a => k a | Err e => Err e end.

(** [let* x := m in k] is Rust's [let x = m?; k]. *)
Notation "'let*' x ':=' m 'in' k" := (bind m (fun x => k))
  (at level 200, x binder, m at level 100, right associativity).

(* ===================================================================== *)
(** * Machine integers *)

Definition I64_MIN : Z := - 2 ^ 63.
Definition I64_MAX : Z := 2 ^ 63 - 1.

(** Reinterpret a [w]-bit unsigned value as two's complement. *)
Definition to_signed (w x : Z) : Z :=
  if x <? 2 ^ (w - 1) then x else x - 2 ^ w.

(** [i64::saturating_add]. *)
Definition i64_saturating_add (a b : Z) : Z :=
  Z.max I64_MIN (Z.min I64_MAX (a + b)).

(* ===================================================================== *)
(** * Bytes, little-endian *)

Definition byte_val (b : Byte.byte) : Z := Z.of_N (Byte.to_N b).

(** Unsigned little-endian value of a byte string. *)
Fixpoint le_value (bs : list Byte.byte) : Z :=
  match bs with
  | [] => 0
  | b :: bs' => byte_val b + 256 * le_value bs'
  end.

(** Encoders used to write concrete frames in examples. *)
Definition byte_of_Z (z : Z) : Byte.byte :=
  match Byte.of_N (Z.to_N (z mod 256)) with Some b => b | None => Byte.x00 end.

Fixpoint le_bytes (n : nat) (z : Z) : list Byte.byte :=
  match n with
  | O => []
  | S n' => byte_of_Z z :: le_bytes n' (z / 256)
  end.

(* ===================================================================== *)
(** * Rust's [f64] operations on primitive binary64 floats *)

Module F64.

(** Round the positive rational [n / d] to the nearest binary64 value,
    ties to even (IEEE 754 round-to-nearest), with gradual underflow and
    overflow to infinity.  This is the rounding of [i64 as f64] and of
    [str::parse::<f64>]. *)
Definition round_pos (n d : Z) : float :=
  let e0 := Z.log2 n - Z.log2 d - 52 in
  (* scaled = n / d * 2^-e as a fraction num / den *)
  let frac e := if e <? 0 then (n * 2 ^ (- e), d) else (n, d * 2 ^ e) in
  let e1 := let '(a, b) := frac e0 in if a / b <? 2 ^ 52 then e0 - 1 else e0 in
  let e2 := Z.max e1 (-1074) in
  let '(a, b) := frac e2 in
  let q := a / b in
  let r := a mod b in
  let q' := if (2 * r >? b) || ((2 * r =? b) && Z.odd q) then q + 1 else q in
  let '(m, e) := if q' =? 2 ^ 53 then (2 ^ 52, e2 + 1) else (q', e2) in
  if e + 52 >? 1023 then PrimFloat.infinity
  else Z.ldexp (PrimFloat.of_uint63 (Uint63.of_Z m)) e.

(** Signed rational [n / d] with [d > 0], keeping the sign of zero. *)
Definition round_Q (neg : bool) (n d : Z) : float :=
  let v := if n =? 0 then PrimFloat.zero else round_pos n d in
  if neg then PrimFloat.opp v else v.

(** [m as f64] for an [i64] [m]. *)
Definition of_i64 (m : Z) : float := round_Q (m <? 0) (Z.abs m) 1.

(** [f64::powi]: compiler-rt's [__powidf2]. *)
Fixpoint powi_loop (fuel : nat) (a r : float) (b : Z) : float :=
  match fuel with
  | O => r
  | S fuel' =>
      let r := if Z.odd b then PrimFloat.mul r a else r in
      let b := Z.quot b 2 in
      if b =? 0 then r else powi_loop fuel' (PrimFloat.mul a a) r b
  end.

Definition powi (a : float) (b : Z) : float :=
  let r := powi_loop 33 a PrimFloat.one b in
  if b <? 0 then PrimFloat.div PrimFloat.one r else r.

(** [a.partial_cmp(&b)]. *)
Definition partial_cmp (a b : float) : option comparison :=
  match PrimFloat.compare a b with
  | FEq => Some Eq
  | FLt => Some Lt
  | FGt => Some Gt
  | FNotComparable => None
  end.

(** ** [<f64 as FromStr>::from_str] (Rust's dec2flt grammar) *)

Definition is_digit (c : Ascii.ascii) : bool :=
  Ascii.leb "0"%char c && Ascii.leb c "9"%char.
Definition digit_val (c : Ascii.ascii) : Z :=
  Z.of_nat (Ascii.nat_of_ascii c) - 48.

(** Leading decimal digits: their value, their count, the rest. *)
Fixpoint digits (s : list Ascii.ascii) (acc : Z) (k : nat)
  : Z * nat * list Ascii.ascii :=
  match s with
  | c :: s' => if is_digit c then digits s' (10 * acc + digit_val c) (S k)
               else (acc, k, s)
  | [] => (acc, k, [])
  end.

Definition lower (s : list Ascii.ascii) : list Ascii.ascii :=
  map (fun c => if (Ascii.leb "A"%char c && Ascii.leb c "Z"%char)
                then Ascii.ascii_of_nat (Ascii.nat_of_ascii c + 32) else c) s.

Definition special (s : list Ascii.ascii) : option float :=
  let l := lower s in
  if bool_decide (l = String.list_ascii_of_string "inf")
     || bool_decide (l = String.list_ascii_of_string "infinity")
  then Some PrimFloat.infinity
  else if bool_decide (l = String.list_ascii_of_string "nan") then Some PrimFloat.nan
  else None.

(** Digits, an optional fraction and an optional exponent, with at least
    one digit before or after the point. *)
Definition decimal (neg : bool) (s : list Ascii.ascii) : option float :=
  let '(ip, ni, s1) := digits s 0 0 in
  let '(fp, nf, s2) :=
    match s1 with
    | "."%char :: s' => digits s' ip 0
    | _ => (ip, 0%nat, s1)
    end in
  if ((ni + nf)%nat =? 0)%nat then None else
  let exp :=
    match s2 with
    | [] => Some 0
    | e :: s3 =>
        if Ascii.eqb e "e"%char || Ascii.eqb e "E"%char then
          let '(sg, s4) := match s3 with
                           | "-"%char :: s' => (-1, s')
                           | "+"%char :: s' => (1, s')
                           | _ => (1, s3)
                           end in
          match digits s4 0 0 with
          | (v, S _, []) => Some (sg * v)
          | _ => None
          end
        else None
    end in
  match exp with
  | None => None
  | Some x =>
      let e := x - Z.of_nat nf in
      if fp =? 0 then Some (round_Q neg 0 1)
      (* beyond these bounds the value rounds to infinity, or to zero,
         whatever its digits: fp * 10^e >= 10^311, or < 10^-330 *)
      else if e >? 310 then Some (if neg then PrimFloat.neg_infinity else PrimFloat.infinity)
      else if Z.log2 fp + 1 + e <? -330 then Some (round_Q neg 0 1)
      else if e <? 0 then Some (round_Q neg fp (10 ^ (- e)))
      else Some (round_Q neg (fp * 10 ^ e) 1)
  end.

Definition parse (str : string) : option float :=
  let s := String.list_ascii_of_string str in
  let '(neg, body) := match s with
                      | "-"%char :: s' => (true, s')
                      | "+"%char :: s' => (false, s')
                      | _ => (false, s)
                      end in
  match special body with
  | Some v => Some (if neg then PrimFloat.opp v else v)
  | None => decimal neg body
  end.

End F64.

(* ===================================================================== *)
(** * SBE decoding ([src/exchanges/binance/sbe]) *)

Module Sbe.

(** [decode_decimal]: [mantissa as f64 * 10f64.powi(exponent as i32)]. *)
Definition decode_decimal (mantissa exponent : Z) : float :=
  PrimFloat.mul (F64.of_i64 mantissa) (F64.powi 10%float exponent).

(** [std::str::from_utf8] / [String::from_utf8] succeed exactly on
    well-formed UTF-8 (Unicode table 3-7). *)
Definition in_range (lo hi : Z) (b : Byte.byte) : bool :=
  (lo <=? byte_val b) && (byte_val b <=? hi).

Fixpoint utf8_valid (bs : list Byte.byte) : bool :=
  match bs with
  | [] => true
  | b0 :: rest =>
      let v := byte_val b0 in
      if v <=? 127 then utf8_valid rest
      else if in_range 194 223 b0 then
        match rest with
        | b1 :: r => in_range 128 191 b1 && utf8_valid r
        | _ => false
        end
      else if in_range 224 239 b0 then
        let lo1 := if v =? 224 then 160 else 128 in
        let hi1 := if v =? 237 then 159 else 191 in
        match rest with
        | b1 :: b2 :: r => in_range lo1 hi1 b1 && in_range 128 191 b2 && utf8_valid r
        | _ => false
        end
      else if in_range 240 244 b0 then
        let lo1 := if v =? 240 then 144 else 128 in
        let hi1 := if v =? 244 then 143 else 191 in
        match rest with
        | b1 :: b2 :: b3 :: r =>
            in_range lo1 hi1 b1 && in_range 128 191 b2 && in_range 128 191 b3
            && utf8_valid r
        | _ => false
        end
      else false
  end.

(** [usize] subtraction: an underflow panics. *)
Definition usize_sub (a b : Z) : result Z :=
  if a <? b then Err ArithPanic else Ok (a - b).

(** ** [std::io::Cursor<&[u8]>] with [byteorder::ReadBytesExt]
    (used by [sbe/messages.rs]) *)

Record IoCursor := { ic_data : list Byte.byte; ic_pos : Z }.

Definition set_position (c : IoCursor) (p : Z) : IoCursor :=
  {| ic_data := ic_data c; ic_pos := p |}.

(** [read_exact] of [n] bytes: fails on a short read. *)
Definition io_read (n : nat) (c : IoCursor) : result (list Byte.byte * IoCursor) :=
  let rem := drop (Z.to_nat (ic_pos c)) (ic_data c) in
  if (length rem <? n)%nat then Err IoUnexpectedEof
  else Ok (take n rem, set_position c (ic_pos c + Z.of_nat n)).

Definition io_read_u8 (c : IoCursor) : result (Z * IoCursor) :=
  let* '(bs, c') := io_read 1 c in Ok (le_value bs, c').
Definition io_read_i8 (c : IoCursor) : result (Z * IoCursor) :=
  let* '(bs, c') := io_read 1 c in Ok (to_signed 8 (le_value bs), c').
Definition io_read_u16 (c : IoCursor) : result (Z * IoCursor) :=
  let* '(bs, c') := io_read 2 c in Ok (le_value bs, c').
Definition io_read_u32 (c : IoCursor) : result (Z * IoCursor) :=
  let* '(bs, c') := io_read 4 c in Ok (le_value bs, c').
Definition io_read_i64 (c : IoCursor) : result (Z * IoCursor) :=
  let* '(bs, c') := io_read 8 c in Ok (to_signed 64 (le_value bs), c').

(** [messages.rs::read_var_string8]. *)
Definition read_var_string8 (c : IoCursor) : result (list Byte.byte * IoCursor) :=
  let position := ic_pos c in
  let data := ic_data c in
  if position >=? Z.of_nat (length data) then Err SbeDecode else
  let length := match data !! Z.to_nat position with
                | Some b => byte_val b | None => 0 end in
  if position + 1 + length >? Z.of_nat (List.length data) then Err SbeDecode else
  let* '(_, c) := io_read_u8 c in
  let* '(bytes, c) := io_read (Z.to_nat length) c in
  if utf8_valid bytes then Ok (bytes, c) else Err SbeDecode.

(** [messages.rs::read_group_size]: [(block_length: u16, num_in_group: u32)]. *)
Definition read_group_size (c : IoCursor) : result (Z * Z * IoCursor) :=
  let* '(bl, c) := io_read_u16 c in
  let* '(n, c) := io_read_u32 c in
  Ok (bl, n, c).

(** [messages.rs::read_group_size16]: [(block_length: u16, num_in_group: u16)]. *)
Definition read_group_size16 (c : IoCursor) : result (Z * Z * IoCursor) :=
  let* '(bl, c) := io_read_u16 c in
  let* '(n, c) := io_read_u16 c in
  Ok (bl, n, c).

(** ** Trades ([TradeStreamEvent::decode]) *)

Record Trade := {
  trade_id : Z;
  trade_price : float;
  trade_qty : float;
  trade_is_buyer_maker : bool }.

(** Timestamps are kept as the raw microsecond counts that
    [micros_to_datetime] converts. *)
Record TradeStreamEvent := {
  te_event_time : Z;
  te_transact_time : Z;
  te_trades : list Trade;
  te_symbol : list Byte.byte }.

Definition option_to_list {A} (o : option A) : list A :=
  match o with Some a => [a] | None => [] end.

(** The [if num_trades > 0 { ... }] block: position the cursor on the last
    entry and parse it. *)
Definition decode_last_trade (data_len block_length num_trades price_exponent
    qty_exponent : Z) (cursor : IoCursor) : result (option Trade * IoCursor) :=
  if num_trades >? 0 then
    let* cursor :=
      if num_trades >? 1 then
        let skip_bytes := (num_trades - 1) * block_length in
        let current_pos := ic_pos cursor in
        if current_pos + skip_bytes <=? data_len
        then Ok (set_position cursor (current_pos + skip_bytes))
        else Err SbeDecode
      else Ok cursor in
    let position_before := ic_pos cursor in
    let* remaining := usize_sub data_len position_before in
    if remaining <? block_length then Err SbeDecode else
    let* '(id, cursor) := io_read_i64 cursor in
    let* '(price_mantissa, cursor) := io_read_i64 cursor in
    let price := decode_decimal price_mantissa price_exponent in
    let* '(qty_mantissa, cursor) := io_read_i64 cursor in
    let qty := decode_decimal qty_mantissa qty_exponent in
    let* '(ibm, cursor) := io_read_u8 cursor in
    let is_buyer_maker := negb (ibm =? 0) in
    let bytes_so_far := ic_pos cursor - position_before in
    let* remaining_in_block := usize_sub block_length bytes_so_far in
    let* cursor :=
      if remaining_in_block >=? 1
      then let* '(_, cursor) := io_read_u8 cursor in Ok cursor
      else Ok cursor in
    let position_after := ic_pos cursor in
    let bytes_read := position_after - position_before in
    let cursor := if bytes_read <? block_length
                  then set_position cursor (position_before + block_length)
                  else cursor in
    Ok (Some {| trade_id := id; trade_price := price; trade_qty := qty;
                trade_is_buyer_maker := is_buyer_maker |}, cursor)
  else Ok (None, cursor).

Definition decode_trade (data : list Byte.byte) : result TradeStreamEvent :=
  let cursor := {| ic_data := data; ic_pos := 0 |} in
  let data_len := Z.of_nat (length data) in
  let* '(event_time_micros, cursor) := io_read_i64 cursor in
  let* '(transact_time_micros, cursor) := io_read_i64 cursor in
  let* '(price_exponent, cursor) := io_read_i8 cursor in
  let* '(qty_exponent, cursor) := io_read_i8 cursor in
  let* '(block_length, num_trades, cursor) := read_group_size cursor in
  let* '(last_trade, cursor) :=
    decode_last_trade data_len block_length num_trades price_exponent
      qty_exponent cursor in
  let trades := option_to_list last_trade in
  let* remaining := usize_sub data_len (ic_pos cursor) in
  if remaining <? 1 then Err SbeDecode else
  let* '(symbol, _) := read_var_string8 cursor in
  Ok {| te_event_time := event_time_micros;
        te_transact_time := transact_time_micros;
        te_trades := trades;
        te_symbol := symbol |}.

End Sbe.

Module SbeMessages.
Import Sbe.

(** ** [BestBidAskStreamEvent::decode] *)

Record BestBidAskStreamEvent := {
  bba_event_time : Z;
  bba_book_update_id : Z;
  bba_bid_price : float;
  bba_bid_qty : float;
  bba_ask_price : float;
  bba_ask_qty : float;
  bba_symbol : list Byte.byte }.

Definition decode_best_bid_ask (data : list Byte.byte) : result BestBidAskStreamEvent :=
  let cursor := {| ic_data := data; ic_pos := 0 |} in
  let* '(event_time_micros, cursor) := io_read_i64 cursor in
  let* '(book_update_id, cursor) := io_read_i64 cursor in
  let* '(price_exponent, cursor) := io_read_i8 cursor in
  let* '(qty_exponent, cursor) := io_read_i8 cursor in
  let* '(bpm, cursor) := io_read_i64 cursor in
  let* '(bqm, cursor) := io_read_i64 cursor in
  let* '(apm, cursor) := io_read_i64 cursor in
  let* '(aqm, cursor) := io_read_i64 cursor in
  let* '(symbol, _) := read_var_string8 cursor in
  Ok {| bba_event_time := event_time_micros;
        bba_book_update_id := book_update_id;
        bba_bid_price := decode_decimal bpm price_exponent;
        bba_bid_qty := decode_decimal bqm qty_exponent;
        bba_ask_price := decode_decimal apm price_exponent;
        bba_ask_qty := decode_decimal aqm qty_exponent;
        bba_symbol := symbol |}.

(** ** Eagerly parsed depth levels ([DepthLevel::decode]) *)

Record DepthLevel := { lvl_price : float; lvl_qty : float }.

(** Reads the two mantissas of one level: 16 bytes, whatever the group's
    block length. *)
Definition decode_depth_level (cursor : IoCursor) (price_exponent qty_exponent : Z)
  : result (DepthLevel * IoCursor) :=
  let* '(price_mantissa, cursor) := io_read_i64 cursor in
  let* '(qty_mantissa, cursor) := io_read_i64 cursor in
  Ok ({| lvl_price := decode_decimal price_mantissa price_exponent;
         lvl_qty := decode_decimal qty_mantissa qty_exponent |}, cursor).

(** [for _ in 0..num { v.push(DepthLevel::decode(&mut cursor, ..)?) }]. *)
Fixpoint decode_levels (num : nat) (cursor : IoCursor) (pe qe : Z)
  : result (list DepthLevel * IoCursor) :=
  match num with
  | O => Ok ([], cursor)
  | S num' =>
      let* '(l, cursor) := decode_depth_level cursor pe qe in
      let* '(ls, cursor) := decode_levels num' cursor pe qe in
      Ok (l :: ls, cursor)
  end.

Record DepthSnapshotStreamEvent := {
  ds_event_time : Z;
  ds_book_update_id : Z;
  ds_bids : list DepthLevel;
  ds_asks : list DepthLevel;
  ds_symbol : list Byte.byte }.

(** [messages.rs: DepthSnapshotStreamEvent::decode]. *)
Definition decode_depth_snapshot (data : list Byte.byte) : result DepthSnapshotStreamEvent :=
  let cursor := {| ic_data := data; ic_pos := 0 |} in
  let* '(event_time_micros, cursor) := io_read_i64 cursor in
  let* '(book_update_id, cursor) := io_read_i64 cursor in
  let* '(price_exponent, cursor) := io_read_i8 cursor in
  let* '(qty_exponent, cursor) := io_read_i8 cursor in
  let* '(_bids_block_length, num_bids, cursor) := read_group_size16 cursor in
  let* '(bids, cursor) := decode_levels (Z.to_nat num_bids) cursor price_exponent qty_exponent in
  let* '(_asks_block_length, num_asks, cursor) := read_group_size16 cursor in
  let* '(asks, cursor) := decode_levels (Z.to_nat num_asks) cursor price_exponent qty_exponent in
  let* '(symbol, _) := read_var_string8 cursor in
  Ok {| ds_event_time := event_time_micros;
        ds_book_update_id := book_update_id;
        ds_bids := bids; ds_asks := asks; ds_symbol := symbol |}.

(** [iter().take(k).map(|b| b.qty).sum::<f64>()]: a left fold of [+]
    from [0.0]. *)
Definition sum_qty (ls : list DepthLevel) : float :=
  fold_left (fun acc l => PrimFloat.add acc (lvl_qty l)) ls PrimFloat.zero.

Record DepthDiffStreamEvent := {
  dd_event_time : Z;
  dd_first_book_update_id : Z;
  dd_last_book_update_id : Z;
  dd_bids : list DepthLevel;
  dd_asks : list DepthLevel;
  dd_symbol : list Byte.byte }.

(** [DepthDiffStreamEvent::decode]. *)
Definition decode_depth_diff (data : list Byte.byte) : result DepthDiffStreamEvent :=
  let cursor := {| ic_data := data; ic_pos := 0 |} in
  let* '(event_time_micros, cursor) := io_read_i64 cursor in
  let* '(first_id, cursor) := io_read_i64 cursor in
  let* '(last_id, cursor) := io_read_i64 cursor in
  let* '(price_exponent, cursor) := io_read_i8 cursor in
  let* '(qty_exponent, cursor) := io_read_i8 cursor in
  let* '(_, num_bids, cursor) := read_group_size16 cursor in
  let* '(bids, cursor) := decode_levels (Z.to_nat num_bids) cursor price_exponent qty_exponent in
  let* '(_, num_asks, cursor) := read_group_size16 cursor in
  let* '(asks, cursor) := decode_levels (Z.to_nat num_asks) cursor price_exponent qty_exponent in
  let* '(symbol, _) := read_var_string8 cursor in
  Ok {| dd_event_time := event_time_micros;
        dd_first_book_update_id := first_id;
        dd_last_book_update_id := last_id;
        dd_bids := bids; dd_asks := asks; dd_symbol := symbol |}.

(** ** Header and dispatch ([types.rs], [decoder.rs]) *)

Record MessageHeader := {
  block_length : Z; template_id : Z; schema_id : Z; version : Z }.

Definition HEADER_SIZE : nat := 8.

Definition decode_header (data : list Byte.byte) : result MessageHeader :=
  if (length data <? HEADER_SIZE)%nat then Err SbeDecode else
  Ok {| block_length := le_value (take 2 data);
        template_id := le_value (take 2 (drop 2 data));
        schema_id := le_value (take 2 (drop 4 data));
        version := le_value (take 2 (drop 6 data)) |}.

Definition TEMPLATE_TRADES_STREAM := 10000.
Definition TEMPLATE_BEST_BID_ASK_STREAM := 10001.
Definition TEMPLATE_DEPTH_SNAPSHOT_STREAM := 10002.
Definition TEMPLATE_DEPTH_DIFF_STREAM := 10003.

Inductive SbeMessageType :=
  | TTrade | TBestBidAsk | TDepthDiff | TDepthSnapshot | TUnknown (id : Z).

Definition from_template_id (id : Z) : SbeMessageType :=
  if id =? TEMPLATE_TRADES_STREAM then TTrade
  else if id =? TEMPLATE_BEST_BID_ASK_STREAM then TBestBidAsk
  else if id =? TEMPLATE_DEPTH_DIFF_STREAM then TDepthDiff
  else if id =? TEMPLATE_DEPTH_SNAPSHOT_STREAM then TDepthSnapshot
  else TUnknown id.

Inductive SbeMessage :=
  | MTrade (e : TradeStreamEvent)
  | MBestBidAsk (e : BestBidAskStreamEvent)
  | MDepthDiff (e : DepthDiffStreamEvent)
  | MDepthSnapshot (e : DepthSnapshotStreamEvent).

Definition map_result {A B} (f : A -> B) (r : result A) : result B :=
  let* a := r in Ok (f a).

(** [SbeDecoder::decode]; the schema id/version check only logs. *)
Definition sbe_decode (data : list Byte.byte) : result SbeMessage :=
  let* header := decode_header data in
  let body := drop HEADER_SIZE data in
  match from_template_id (template_id header) with
  | TTrade => map_result MTrade (decode_trade body)
  | TBestBidAsk => map_result MBestBidAsk (decode_best_bid_ask body)
  | TDepthDiff => map_result MDepthDiff (decode_depth_diff body)
  | TDepthSnapshot => map_result MDepthSnapshot (decode_depth_snapshot body)
  | TUnknown _ => Err SbeDecode
  end.

End SbeMessages.

(* ===================================================================== *)
(** * Lazy depth views and the imbalance detector
      ([sbe/utils.rs], [sbe/events/depth.rs]) *)

Module LazyDepth.
Import Sbe.

(** [SbeCursor]: a byte slice and a position that never passes its end. *)
Record SbeCursor := { sc_data : list Byte.byte; sc_pos : Z }.

Definition sc_len (c : SbeCursor) : Z := Z.of_nat (length (sc_data c)).
Definition remaining (c : SbeCursor) : Z := Z.max 0 (sc_len c - sc_pos c).
Definition advance_to (c : SbeCursor) (p : Z) : SbeCursor :=
  {| sc_data := sc_data c; sc_pos := p |}.

(** [read_bytes]: the next [len] bytes, borrowed from the buffer. *)
Definition read_bytes (c : SbeCursor) (len : Z) : result (list Byte.byte * SbeCursor) :=
  if remaining c <? len then Err SbeDecode else
  Ok (take (Z.to_nat len) (drop (Z.to_nat (sc_pos c)) (sc_data c)),
      advance_to c (sc_pos c + len)).

Definition read_u8 (c : SbeCursor) : result (Z * SbeCursor) :=
  if remaining c <? 1 then Err SbeDecode else
  let* '(bs, c) := read_bytes c 1 in Ok (le_value bs, c).
Definition read_i8 (c : SbeCursor) : result (Z * SbeCursor) :=
  let* '(v, c) := read_u8 c in Ok (to_signed 8 v, c).

(** [read_zerocopy] of a [width]-byte little-endian value. *)
Definition read_le (width : Z) (c : SbeCursor) : result (Z * SbeCursor) :=
  let slice := drop (Z.to_nat (sc_pos c)) (sc_data c) in
  if (length slice <? Z.to_nat width)%nat then Err SbeDecode else
  Ok (le_value (take (Z.to_nat width) slice), advance_to c (sc_pos c + width)).

Definition read_u16_le := read_le 2.
Definition read_i64_le (c : SbeCursor) : result (Z * SbeCursor) :=
  let* '(v, c) := read_le 8 c in Ok (to_signed 64 v, c).

Definition read_var_string8 (c : SbeCursor) : result (list Byte.byte * SbeCursor) :=
  let* '(length, c) := read_u8 c in
  let* '(bytes, c) := read_bytes c length in
  if utf8_valid bytes then Ok (bytes, c) else Err SbeDecode.

Definition read_group_size16 (c : SbeCursor) : result (Z * Z * SbeCursor) :=
  let* '(bl, c) := read_u16_le c in
  let* '(n, c) := read_u16_le c in
  Ok (bl, n, c).

(** [read_i64_le_from]: an [i64] at the start of a slice. *)
Definition read_i64_le_from (data : list Byte.byte) : result Z :=
  if (length data <? 8)%nat then Err SbeDecode
  else Ok (to_signed 64 (le_value (take 8 data))).

(** [DepthLevels]: raw level bytes, count, stride and quantity scale. *)
Record DepthLevels := {
  dl_data : list Byte.byte;
  dl_count : Z;
  dl_block_length : Z;
  dl_qty_scale : float }.

Definition new_levels (data : list Byte.byte) (count block_length : Z)
    (qty_scale : float) : result DepthLevels :=
  if block_length <? 16 then Err SbeDecode else
  Ok {| dl_data := data; dl_count := count; dl_block_length := block_length;
        dl_qty_scale := qty_scale |}.

(** The loop of [sum_qtys_top5_top10_all], from level [idx] at byte
    [offset], for [fuel] more levels. *)
Fixpoint sum_loop (d : DepthLevels) (fuel : nat) (idx offset : Z)
    (top_5_sum top_10_sum all_sum : float) : result (float * float * float) :=
  match fuel with
  | O => Ok (top_5_sum, top_10_sum, all_sum)
  | S fuel' =>
      let qty_offset := offset + 8 in
      if qty_offset + 8 >? Z.of_nat (length (dl_data d)) then Err SbeDecode else
      let* qty_mantissa := read_i64_le_from (drop (Z.to_nat qty_offset) (dl_data d)) in
      let qty := PrimFloat.mul (F64.of_i64 qty_mantissa) (dl_qty_scale d) in
      let top_5_sum := if idx <? 5 then PrimFloat.add top_5_sum qty else top_5_sum in
      let top_10_sum := if idx <? 10 then PrimFloat.add top_10_sum qty else top_10_sum in
      let all_sum := PrimFloat.add all_sum qty in
      sum_loop d fuel' (idx + 1) (offset + dl_block_length d) top_5_sum top_10_sum all_sum
  end.

Definition sum_qtys_top5_top10_all (d : DepthLevels) : result (float * float * float) :=
  sum_loop d (Z.to_nat (dl_count d)) 0 0 PrimFloat.zero PrimFloat.zero PrimFloat.zero.

(** The level bytes of a decoded side: [count] blocks of at least 16 bytes. *)
Definition levels_wf (d : DepthLevels) : Prop :=
  16 <= dl_block_length d /\ 0 <= dl_count d /\
  Z.of_nat (length (dl_data d)) = dl_block_length d * dl_count d.

Record DepthSnapshotStreamEvent := {
  ev_event_time : Z;
  ev_book_update_id : Z;
  ev_bids : DepthLevels;
  ev_asks : DepthLevels;
  ev_symbol : list Byte.byte }.

(** [events/depth.rs: DepthSnapshotStreamEvent::decode]. *)
Definition decode (data : list Byte.byte) : result DepthSnapshotStreamEvent :=
  let cursor := {| sc_data := data; sc_pos := 0 |} in
  let* '(event_time_micros, cursor) := read_i64_le cursor in
  let* '(book_update_id, cursor) := read_i64_le cursor in
  let* '(_price_exponent, cursor) := read_i8 cursor in
  let* '(qty_exponent, cursor) := read_i8 cursor in
  let qty_scale := F64.powi 10%float qty_exponent in
  let* '(bids_block_length, num_bids, cursor) := read_group_size16 cursor in
  let bids_bytes := bids_block_length * num_bids in
  let* '(bids_data, cursor) := read_bytes cursor bids_bytes in
  let* bids := new_levels bids_data num_bids bids_block_length qty_scale in
  let* '(asks_block_length, num_asks, cursor) := read_group_size16 cursor in
  let asks_bytes := asks_block_length * num_asks in
  let* '(asks_data, cursor) := read_bytes cursor asks_bytes in
  let* asks := new_levels asks_data num_asks asks_block_length qty_scale in
  let* '(symbol, _) := read_var_string8 cursor in
  Ok {| ev_event_time := event_time_micros; ev_book_update_id := book_update_id;
        ev_bids := bids; ev_asks := asks; ev_symbol := symbol |}.

(** [crate::event_processor::ImbalanceAlert]; times are kept abstract. *)
Record ImbalanceAlert := {
  message_received_time : Z;
  imbalance_detected_time : Z;
  alert_symbol : list Byte.byte;
  imbalance_top_5 : float;
  imbalance_top_10 : float;
  imbalance_all : float;
  top_5_bids : float;
  top_5_asks : float;
  top_10_bids : float;
  top_10_asks : float;
  all_bids : float;
  all_asks : float }.

(** The alert condition of [print_update]. *)
Definition imbalanced (r5 r10 rall : float) : bool :=
  PrimFloat.ltb 100%float r5 || PrimFloat.ltb 100%float r10
  || PrimFloat.ltb 100%float rall || PrimFloat.ltb r5 0.01%float
  || PrimFloat.ltb r10 0.01%float || PrimFloat.ltb rall 0.01%float.

(** [print_update]: the alert handed to [tx.try_send], if any.
    [imbalance_tx] tells whether a sender is attached; [now] is
    [chrono::Utc::now()]. *)
Definition print_update (imbalance_tx : bool) (now : Z)
    (ev : DepthSnapshotStreamEvent) : option ImbalanceAlert :=
  match sum_qtys_top5_top10_all (ev_bids ev) with
  | Err _ => None
  | Ok (b5, b10, ball) =>
  match sum_qtys_top5_top10_all (ev_asks ev) with
  | Err _ => None
  | Ok (a5, a10, aall) =>
      if PrimFloat.leb a5 0%float then None else
      let r5 := PrimFloat.div b5 a5 in
      let r10 := PrimFloat.div b10 a10 in
      let rall := PrimFloat.div ball aall in
      if imbalanced r5 r10 rall then
        if imbalance_tx then
          Some {| message_received_time := ev_event_time ev;
                  imbalance_detected_time := now;
                  alert_symbol := ev_symbol ev;
                  imbalance_top_5 := r5; imbalance_top_10 := r10;
                  imbalance_all := rall;
                  top_5_bids := b5; top_5_asks := a5;
                  top_10_bids := b10; top_10_asks := a10;
                  all_bids := ball; all_asks := aall |}
        else None
      else None
  end
  end.

End LazyDepth.

(* ===================================================================== *)
(** * Kalshi order books ([exchanges/kalshi/models.rs], [state.rs]) *)

Module Book.

Record OrderbookLevel := { price : float; quantity : Z }.

Record KalshiOrderbook := {
  market_ticker : string;
  yes_bids : list OrderbookLevel;
  yes_asks : list OrderbookLevel;
  no_bids : list OrderbookLevel;
  no_asks : list OrderbookLevel }.

Definition set_yes_bids (b : KalshiOrderbook) l :=
  {| market_ticker := market_ticker b; yes_bids := l; yes_asks := yes_asks b;
     no_bids := no_bids b; no_asks := no_asks b |}.
Definition set_no_bids (b : KalshiOrderbook) l :=
  {| market_ticker := market_ticker b; yes_bids := yes_bids b; yes_asks := yes_asks b;
     no_bids := l; no_asks := no_asks b |}.
Definition set_yes_asks (b : KalshiOrderbook) l :=
  {| market_ticker := market_ticker b; yes_bids := yes_bids b; yes_asks := l;
     no_bids := no_bids b; no_asks := no_asks b |}.
Definition set_no_asks (b : KalshiOrderbook) l :=
  {| market_ticker := market_ticker b; yes_bids := yes_bids b; yes_asks := yes_asks b;
     no_bids := no_bids b; no_asks := l |}.

Definition empty_book (ticker : string) : KalshiOrderbook :=
  {| market_ticker := ticker; yes_bids := []; yes_asks := [];
     no_bids := []; no_asks := [] |}.

(** [KalshiOrderbookDelta] (a JSON message). *)
Record KalshiOrderbookDelta := {
  d_market_ticker : string;
  d_price_dollars : string;
  d_delta : Z;
  d_side : string }.

(** [KalshiState]: the tracked markets (their [KalshiMarket] records are
    not needed here) and the order-book store, both [DashMap]s. *)
Record KalshiState := {
  tracked_markets : gset string;
  orderbooks : gmap string KalshiOrderbook }.

(** ** [slice::sort_by] *)

(** A stable sort: each element goes before the first later one that it
    does not compare [Greater] to.  On a comparator that is a total
    preorder this is the result of every stable sort, Rust's included. *)
Fixpoint insert_by {A} (cmp : A -> A -> comparison) (x : A) (l : list A) : list A :=
  match l with
  | [] => [x]
  | y :: l' => match cmp x y with
               | Gt => y :: insert_by cmp x l'
               | _ => x :: l
               end
  end.

Definition sort_by {A} (cmp : A -> A -> comparison) (l : list A) : list A :=
  fold_right (insert_by cmp) [] l.

Definition unwrap_or_equal (o : option comparison) : comparison :=
  match o with Some c => c | None => Eq end.

(** [|a, b| b.price.partial_cmp(&a.price).unwrap_or(Equal)]: descending. *)
Definition cmp_desc (a b : OrderbookLevel) : comparison :=
  unwrap_or_equal (F64.partial_cmp (price b) (price a)).
(** [|a, b| a.price.partial_cmp(&b.price).unwrap_or(Equal)]: ascending. *)
Definition cmp_asc (a b : OrderbookLevel) : comparison :=
  unwrap_or_equal (F64.partial_cmp (price a) (price b)).

(** ** Applying one delta to a bid side (the block shared by
    [event_processor.rs::handle_orderbook_delta] and
    [KalshiClient::process_orderbook_delta]) *)

(** [(l.price - price).abs() < 1e-12]. *)
Definition price_matches (price : float) (l : OrderbookLevel) : bool :=
  PrimFloat.ltb (PrimFloat.abs (PrimFloat.sub (Book.price l) price)) 1e-12%float.

(** [Iterator::position]. *)
Fixpoint position {A} (p : A -> bool) (l : list A) : option nat :=
  match l with
  | [] => None
  | x :: l' => if p x then Some 0%nat else option_map S (position p l')
  end.

Definition update_levels (levels : list OrderbookLevel) (price : float) (delta : Z)
  : list OrderbookLevel :=
  match position (price_matches price) levels with
  | Some idx =>
      match levels !! idx with
      | Some l =>
          let new_qty := i64_saturating_add (quantity l) delta in
          if new_qty <=? 0 then delete idx levels
          else <[idx := {| price := Book.price l; quantity := new_qty |}]> levels
      | None => levels
      end
  | None =>
      if delta >? 0 then levels ++ [{| price := price; quantity := delta |}]
      else levels
  end.

(** [String::to_lowercase] on the bytes of the side: only ASCII letters
    can lower-case to ["yes"], so lowering the ASCII range decides the
    comparison exactly. *)
Definition to_lowercase (s : string) : string :=
  String.string_of_list_ascii (F64.lower (String.list_ascii_of_string s)).

(** ** The event processor's book refresh ([event_processor.rs]) *)

(** Bids sorted descending, then one derived ask per side from the best
    opposing bid ([quantity: 0]). *)
Definition refresh_single (b : KalshiOrderbook) : KalshiOrderbook :=
  let b := set_yes_bids b (sort_by cmp_desc (yes_bids b)) in
  let b := set_no_bids b (sort_by cmp_desc (no_bids b)) in
  let yes_asks := match no_bids b with
                  | best :: _ => [{| price := PrimFloat.sub 1%float (price best); quantity := 0 |}]
                  | [] => [] end in
  let no_asks := match yes_bids b with
                 | best :: _ => [{| price := PrimFloat.sub 1%float (price best); quantity := 0 |}]
                 | [] => [] end in
  set_no_asks (set_yes_asks b yes_asks) no_asks.

(** The book-store part of [handle_orderbook_update] (snapshot). *)
Definition apply_snapshot (st : KalshiState) (ob : KalshiOrderbook) : KalshiState :=
  if bool_decide (market_ticker ob ∈ tracked_markets st) then
    let ticker := market_ticker ob in
    let existing := default (empty_book ticker) (orderbooks st !! ticker) in
    let existing := set_no_bids (set_yes_bids existing (yes_bids ob)) (no_bids ob) in
    {| tracked_markets := tracked_markets st;
       orderbooks := <[ticker := refresh_single existing]> (orderbooks st) |}
  else st.

(** The book-store part of [handle_orderbook_delta]. *)
Definition apply_delta (st : KalshiState) (delta : KalshiOrderbookDelta) : KalshiState :=
  match F64.parse (d_price_dollars delta) with
  | None => st
  | Some price =>
      let ticker := d_market_ticker delta in
      let existing := default (empty_book ticker) (orderbooks st !! ticker) in
      let existing :=
        if bool_decide (to_lowercase (d_side delta) = "yes"%string)
        then set_yes_bids existing (update_levels (yes_bids existing) price (d_delta delta))
        else set_no_bids existing (update_levels (no_bids existing) price (d_delta delta)) in
      {| tracked_markets := tracked_markets st;
         orderbooks := <[ticker := refresh_single existing]> (orderbooks st) |}
  end.

(** ** Observations used by the statements below *)

(** The levels of a side that a delta at [price] would match. *)
Definition levels_at (price : float) (ls : list OrderbookLevel) : list OrderbookLevel :=
  List.filter (price_matches price) ls.

(** The YES bids stored for [ticker] (none when it has no book). *)
Definition yes_bids_at (st : KalshiState) (ticker : string) : list OrderbookLevel :=
  default [] (yes_bids <$> orderbooks st !! ticker).

Definition yes_delta (ticker price_dollars : string) (delta : Z) : KalshiOrderbookDelta :=
  {| d_market_ticker := ticker; d_price_dollars := price_dollars;
     d_delta := delta; d_side := "yes" |}.

(** The bid side that a delta with side [side] updates: YES when the side
    lower-cases to ["yes"], NO otherwise. *)
Definition side_bids (b : KalshiOrderbook) (side : string) : list OrderbookLevel :=
  if bool_decide (to_lowercase side = "yes"%string) then yes_bids b else no_bids b.

Definition side_bids_at (st : KalshiState) (ticker side : string) : list OrderbookLevel :=
  default [] ((fun b => side_bids b side) <$> orderbooks st !! ticker).

Definition side_delta (ticker price_dollars side : string) (delta : Z) : KalshiOrderbookDelta :=
  {| d_market_ticker := ticker; d_price_dollars := price_dollars;
     d_delta := delta; d_side := side |}.

(** A run of deltas at one price string and side, through a delta
    handler [handler]. *)
Definition apply_side_deltas (handler : KalshiState -> KalshiOrderbookDelta -> KalshiState)
    (st : KalshiState) (ticker price_dollars side : string) (ds : list Z) : KalshiState :=
  fold_left (fun st d => handler st (side_delta ticker price_dollars side d)) ds st.

(** A run of YES deltas at one price string. *)
Definition apply_yes_deltas (st : KalshiState) (ticker price_dollars : string)
    (ds : list Z) : KalshiState :=
  fold_left (fun st d => apply_delta st (yes_delta ticker price_dollars d)) ds st.

(** The running totals [q + d1], [q + d1 + d2], ... *)
Fixpoint running_totals (q : Z) (ds : list Z) : list Z :=
  match ds with
  | [] => []
  | d :: ds' => (q + d) :: running_totals (q + d) ds'
  end.

Definition in_i64_nonneg (z : Z) : bool := (0 <=? z) && (z <=? I64_MAX).

(** The level set at [price] holding quantity [q] (none when [q = 0]). *)
Definition level_set (price : float) (q : Z) : list OrderbookLevel :=
  if q =? 0 then [] else [{| price := price; quantity := q |}].

Definition empty_state : KalshiState :=
  {| tracked_markets := ∅; orderbooks := ∅ |}.

(** A snapshot with two YES and two NO levels. *)
Definition two_level_snapshot (ticker : string) : KalshiOrderbook :=
  {| market_ticker := ticker;
     yes_bids := [{| price := 0.51; quantity := 100 |}; {| price := 0.50; quantity := 80 |}];
     yes_asks := [];
     no_bids := [{| price := 0.47; quantity := 60 |}; {| price := 0.46; quantity := 40 |}];
     no_asks := [] |}.

(** A stored level with a positive quantity. *)
Definition pos_level (l : OrderbookLevel) : Prop := 0 < quantity l.

(** The derived-ask shape that the spec describes: one YES ask at
    [1 - best NO bid] when there is a NO bid, and symmetrically. *)
Definition derived_single (b : KalshiOrderbook) : Prop :=
  (forall x rest, no_bids b = x :: rest ->
     yes_asks b = [{| price := PrimFloat.sub 1%float (price x); quantity := 0 |}]) /\
  (forall x rest, yes_bids b = x :: rest ->
     no_asks b = [{| price := PrimFloat.sub 1%float (price x); quantity := 0 |}]).

End Book.

(* ===================================================================== *)
(** * The Kalshi client's book handlers ([exchanges/kalshi/client.rs]) *)

Module Client.
Import Book.

Definition mirror (l : OrderbookLevel) : OrderbookLevel :=
  {| price := PrimFloat.sub 1%float (price l); quantity := quantity l |}.

(** [derive_asks_from_bids]: every opposing bid mirrored, in bid order. *)
Definition derive_asks_from_bids (ob : KalshiOrderbook) : KalshiOrderbook :=
  set_no_asks (set_yes_asks ob (map mirror (no_bids ob))) (map mirror (yes_bids ob)).

(** [sort_orderbook]: bids descending, asks ascending. *)
Definition sort_orderbook (ob : KalshiOrderbook) : KalshiOrderbook :=
  {| market_ticker := market_ticker ob;
     yes_bids := sort_by cmp_desc (yes_bids ob);
     yes_asks := sort_by cmp_asc (yes_asks ob);
     no_bids := sort_by cmp_desc (no_bids ob);
     no_asks := sort_by cmp_asc (no_asks ob) |}.

(** [process_orderbook_update]: no tracking check here. *)
Definition process_orderbook_update (st : KalshiState) (ob : KalshiOrderbook) : KalshiState :=
  let ticker := market_ticker ob in
  let existing := default (empty_book ticker) (orderbooks st !! ticker) in
  let existing := set_no_bids (set_yes_bids existing (yes_bids ob)) (no_bids ob) in
  let existing := sort_orderbook (derive_asks_from_bids existing) in
  {| tracked_markets := tracked_markets st;
     orderbooks := <[ticker := existing]> (orderbooks st) |}.

(** [process_orderbook_delta]. *)
Definition process_orderbook_delta (st : KalshiState) (delta : KalshiOrderbookDelta) : KalshiState :=
  match F64.parse (d_price_dollars delta) with
  | None => st
  | Some price =>
      let ticker := d_market_ticker delta in
      let existing := default (empty_book ticker) (orderbooks st !! ticker) in
      let existing :=
        if bool_decide (to_lowercase (d_side delta) = "yes"%string)
        then set_yes_bids existing (update_levels (yes_bids existing) price (d_delta delta))
        else set_no_bids existing (update_levels (no_bids existing) price (d_delta delta)) in
      let existing := sort_orderbook (derive_asks_from_bids (sort_orderbook existing)) in
      {| tracked_markets := tracked_markets st;
         orderbooks := <[ticker := existing]> (orderbooks st) |}
  end.

End Client.

(* ===================================================================== *)
(** * Market lifecycle messages ([exchanges/kalshi/models.rs],
      [KalshiClient::handle_market_lifecycle]) *)

Module Lifecycle.

Inductive KalshiMarketStatus :=
  | Unopened | Open | Active | Paused | Closed | Settled.

#[global] Instance KalshiMarketStatus_eq_dec : EqDecision KalshiMarketStatus.
Proof. solve_decision. Defined.

Module EventType.

Inductive KalshiMarketLifecycleEventType :=
  | Created | Activated | Deactivated | CloseDateUpdated | Determined | Settled.

(** [KalshiMarketLifecycleEventType::from_str] (used by the message's
    deserializer): [None] is the [Err] that fails the parse. *)
Definition from_str (s : string) : option KalshiMarketLifecycleEventType :=
  if String.eqb s "created" then Some Created
  else if String.eqb s "activated" then Some Activated
  else if String.eqb s "deactivated" then Some Deactivated
  else if String.eqb s "close_date_updated" then Some CloseDateUpdated
  else if String.eqb s "determined" then Some Determined
  else if String.eqb s "settled" then Some Settled
  else None.

(** [KalshiMarketLifecycleEventType::to_status]. *)
Definition to_status (e : KalshiMarketLifecycleEventType) (is_deactivated : option bool)
  : option KalshiMarketStatus :=
  match e with
  | Created => Some Unopened
  | Activated => Some Open
  | Deactivated =>
      if bool_decide (is_deactivated = Some true) then Some Paused else Some Open
  | CloseDateUpdated => Some Open
  | Determined => Some Closed
  | Settled => Some Lifecycle.Settled
  end.

End EventType.

(** What [handle_market_lifecycle] does with one message: nothing, or
    [switch_to_next_market]. *)
Inductive LifecycleAction := Ignored | SwitchMarket.

(** [handle_market_lifecycle] on a message with the given [event_type]
    string, [market_ticker] and [is_deactivated] flag, while the client's
    [current_market] has ticker [current_market_ticker].  A message whose
    event type does not parse is dropped with a warning. *)
Definition handle_market_lifecycle (current_market_ticker : option string)
    (event_type market_ticker : string) (is_deactivated : option bool) : LifecycleAction :=
  match EventType.from_str event_type with
  | None => Ignored
  | Some et =>
      if bool_decide (current_market_ticker = Some market_ticker) then
        match EventType.to_status et is_deactivated with
        | None => Ignored
        | Some new_status =>
            if bool_decide (new_status = Closed) || bool_decide (new_status = Settled) then
              match current_market_ticker with
              | Some current =>
                  if bool_decide (current = market_ticker) then SwitchMarket else Ignored
              | None => Ignored
              end
            else Ignored
        end
      else Ignored
  end.

End Lifecycle.

(* ===================================================================== *)
(** * The event processor ([src/event_processor.rs]) *)

Module Coordinator.
Import Book.

(** [Instant]s and [DateTime<Utc>]s are integers: nanoseconds on the
    monotonic clock, microseconds since the epoch on the wall clock. *)
Definition FIFTEEN_SECONDS : Z := 15 * 1000000000.

(** [now.duration_since(start)]: saturates at zero. *)
Definition duration_since (now start : Z) : Z := Z.max 0 (now - start).

(** One observation [(wall_time, yes_ask, no_ask, yes_bid, no_bid)]. *)
Definition Observation : Type := Z * float * float * float * float.

(** An imbalance alert as the coordinator receives it. *)
Record ImbalanceAlert := {
  al_symbol : string;
  al_detected_time : Z }.

Record Coordinator := {
  kalshi : KalshiState;
  active_monitors : gmap string Z;
  kalshi_changes : gmap string (list Observation) }.

Definition best (l : list OrderbookLevel) : option float :=
  match l with x :: _ => Some (price x) | [] => None end.

(** [DateTime::timestamp()]: whole seconds. *)
Definition timestamp (micros : Z) : Z := micros / 1000000.

Definition monitor_key (alert : ImbalanceAlert) : string :=
  (al_symbol alert +:+ "_" +:+ pretty (timestamp (al_detected_time alert)))%string.

Definition has_active_monitor (monitors : gmap string Z) (now : Z) : bool :=
  bool_decide (map_Exists (fun _ start => duration_since now start <= FIFTEEN_SECONDS) monitors).

Inductive AlertOutcome :=
  | NoTrackedMarket | NoOrderbook | SkippedActive | Started (key : string).

(** [handle_imbalance_alert].  [now] is the instant of the gate check,
    [now'] the later [Instant::now()] stored as the session start and
    [utc_now] the wall time of the seed observation.  The 15-second timer
    task it spawns is the separate event [timer_fired]. *)
Definition handle_imbalance_alert (c : Coordinator) (alert : ImbalanceAlert)
    (now now' utc_now : Z) : Coordinator * AlertOutcome :=
  match elements (tracked_markets (kalshi c)) with
  | [] => (c, NoTrackedMarket)
  | kalshi_ticker :: _ =>
  match orderbooks (kalshi c) !! kalshi_ticker with
  | None => (c, NoOrderbook)
  | Some orderbook =>
      if has_active_monitor (active_monitors c) now then (c, SkippedActive) else
      let key := monitor_key alert in
      let seed :=
        match best (yes_asks orderbook), best (no_asks orderbook),
              best (yes_bids orderbook), best (no_bids orderbook) with
        | Some ya, Some na, Some yb, Some nb => [(utc_now, ya, na, yb, nb)]
        | _, _, _, _ => []
        end in
      ({| kalshi := kalshi c;
          active_monitors := <[key := now']> (active_monitors c);
          kalshi_changes := <[key := seed]> (kalshi_changes c) |}, Started key)
  end
  end.

(** The spawned task, after its 15-second sleep: drop the session from
    the active map (the report it writes is not modelled). *)
Definition timer_fired (c : Coordinator) (key : string) : Coordinator :=
  {| kalshi := kalshi c;
     active_monitors := delete key (active_monitors c);
     kalshi_changes := kalshi_changes c |}.

(** [(last.k - x).abs() > 1e-6] for one of the four prices. *)
Definition moved (a b : float) : bool :=
  PrimFloat.ltb 1e-6%float (PrimFloat.abs (PrimFloat.sub a b)).

(** [record_kalshi_change]. *)
Definition record_kalshi_change (c : Coordinator) (ob : KalshiOrderbook)
    (now utc_now : Z) : Coordinator :=
  match best (yes_asks ob), best (no_asks ob), best (yes_bids ob), best (no_bids ob) with
  | Some ya, Some na, Some yb, Some nb =>
      if bool_decide (active_monitors c = ∅) then c else
      let active_keys :=
        map fst (filter (fun '(_, start) => duration_since now start <= FIFTEEN_SECONDS)
                        (map_to_list (active_monitors c))) in
      let push (changes : gmap string (list Observation)) (key : string) :=
        match changes !! key with
        | Some obs =>
            let fresh :=
              match last obs with
              | None => true
              | Some (_, la, lna, lb, lnb) =>
                  moved la ya || moved lna na || moved lb yb || moved lnb nb
              end in
            if fresh then <[key := obs ++ [(utc_now, ya, na, yb, nb)]]> changes
            else changes
        | None => changes
        end in
      {| kalshi := kalshi c; active_monitors := active_monitors c;
         kalshi_changes := foldl push (kalshi_changes c) active_keys |}
  | _, _, _, _ => c
  end.

(** [handle_orderbook_update] (a snapshot event). *)
Definition handle_orderbook_update (c : Coordinator) (ob : KalshiOrderbook)
    (now utc_now : Z) : Coordinator :=
  if bool_decide (market_ticker ob ∈ tracked_markets (kalshi c)) then
    let st := apply_snapshot (kalshi c) ob in
    let c' := {| kalshi := st; active_monitors := active_monitors c;
                 kalshi_changes := kalshi_changes c |} in
    match orderbooks st !! market_ticker ob with
    | Some b => record_kalshi_change c' b now utc_now
    | None => c'
    end
  else c.

(** [handle_orderbook_delta]. *)
Definition handle_orderbook_delta (c : Coordinator) (delta : KalshiOrderbookDelta)
    (now utc_now : Z) : Coordinator :=
  match F64.parse (d_price_dollars delta) with
  | None => c
  | Some _ =>
      let st := apply_delta (kalshi c) delta in
      let c' := {| kalshi := st; active_monitors := active_monitors c;
                   kalshi_changes := kalshi_changes c |} in
      match orderbooks st !! d_market_ticker delta with
      | Some b => record_kalshi_change c' b now utc_now
      | None => c'
      end
  end.

(** The coordinator's inputs, each with the instants at which it runs. *)
Inductive Event :=
  | EvAlert (alert : ImbalanceAlert) (now now' utc_now : Z)
  | EvTimer (key : string)
  | EvSnapshot (ob : KalshiOrderbook) (now utc_now : Z)
  | EvDelta (delta : KalshiOrderbookDelta) (now utc_now : Z).

Definition step (c : Coordinator) (ev : Event) : Coordinator :=
  match ev with
  | EvAlert a now now' utc_now => fst (handle_imbalance_alert c a now now' utc_now)
  | EvTimer key => timer_fired c key
  | EvSnapshot ob now utc_now => handle_orderbook_update c ob now utc_now
  | EvDelta d now utc_now => handle_orderbook_delta c d now utc_now
  end.

Definition run (c : Coordinator) (evs : list Event) : Coordinator := foldl step c evs.

(** ** Observations used by the statements below *)

(** Any two distinct sessions were started more than 15 s apart. *)
Definition sessions_apart (m : gmap string Z) : Prop :=
  map_Forall (fun k1 s1 =>
    map_Forall (fun k2 s2 => k1 = k2 \/ FIFTEEN_SECONDS < Z.abs (s1 - s2)) m) m.

#[global] Instance sessions_apart_dec (m : gmap string Z) : Decision (sessions_apart m).
Proof.
apply map_Forall_dec. intros k1 s1.
apply map_Forall_dec. intros k2 s2. solve_decision.
Defined.

(** No session starts after [t]. *)
Definition started_by (m : gmap string Z) (t : Z) : Prop :=
  map_Forall (fun _ s => s <= t) m.

#[global] Instance started_by_dec (m : gmap string Z) (t : Z) : Decision (started_by m t).
Proof. apply map_Forall_dec. intros. solve_decision. Defined.

(** The monotonic clock of a run: every alert is checked no earlier than
    [t], the last instant read before it, and stores an instant no earlier
    than its check. *)
Fixpoint clock_ok (t : Z) (evs : list Event) : bool :=
  match evs with
  | [] => true
  | EvAlert _ now now' _ :: evs' => (t <=? now) && (now <=? now') && clock_ok now' evs'
  | _ :: evs' => clock_ok t evs'
  end.

(** A coordinator tracking one market with a two-sided book and no
    session yet. *)
(** The check of [record_kalshi_change] that an observation is worth
    recording after [obs]: there is none yet, or one of the four prices
    moved by more than 1e-6 since the last one. *)
Definition fresh_after (obs : list Observation) (ya na yb nb : float) : bool :=
  match last obs with
  | None => true
  | Some (_, la, lna, lb, lnb) => moved la ya || moved lna na || moved lb yb || moved lnb nb
  end.

Definition example_book : KalshiOrderbook :=
  refresh_single
    {| market_ticker := "KXBTC15M-X"; yes_bids := [{| price := 0.51; quantity := 100 |}];
       yes_asks := []; no_bids := [{| price := 0.47; quantity := 80 |}]; no_asks := [] |}.

Definition example_coordinator : Coordinator :=
  {| kalshi := {| tracked_markets := {[ "KXBTC15M-X"%string ]};
                  orderbooks := {[ "KXBTC15M-X"%string := example_book ]} |};
     active_monitors := ∅;
     kalshi_changes := ∅ |}.

Definition alert_at (micros : Z) : ImbalanceAlert :=
  {| al_symbol := "BTCUSDT"; al_detected_time := micros |}.

End Coordinator.

(* ===================================================================== *)
(** * The Binance reader loop ([exchanges/binance/client.rs]) *)

Module Binance.
Import Sbe SbeMessages.

(** A WebSocket read ([recv_raw]): a message, or [None] when the stream
    ended.  [Ping]'s flag tells whether the pong could be sent. *)
Inductive Message :=
  | Binary (data : list Byte.byte)
  | Text (s : string)
  | Ping (pong_sent : bool)
  | Pong
  | Close
  | RawFrame.

(** [recv_sbe]. *)
Definition recv_sbe (m : option Message) : result (option SbeMessage) :=
  match m with
  | Some (Binary data) => let* msg := sbe_decode data in Ok (Some msg)
  | Some (Ping pong_sent) => if pong_sent then Ok None else Err WebSocket
  | Some Pong => Ok None
  | Some Close => Err WebSocket
  | Some (Text _) => Ok None
  | Some RawFrame => Ok None
  | None => Err WebSocket
  end.

(** What became of the task once the modelled reads are used up: it
    returned, or it is still waiting for the next read. *)
Inductive Outcome :=
  | Returned (r : result unit)
  | Waiting.

(** The SBE branch of [BinanceClient::run]: every decoded message is
    forwarded on the price channel ([rx_open]: whether its receiver is
    alive; the update conversion is not modelled). *)
Fixpoint run_sbe (rx_open : bool) (reads : list (option Message))
  : list SbeMessage * Outcome :=
  match reads with
  | [] => ([], Waiting)
  | m :: rest =>
      match recv_sbe m with
      | Ok (Some msg) =>
          if rx_open then
            let '(fwd, out) := run_sbe rx_open rest in (msg :: fwd, out)
          else ([], Returned (Ok tt))
      | Ok None => run_sbe rx_open rest
      | Err e => ([], Returned (Err e))
      end
  end.

(** ** Frames for the examples *)

Definition header (template : Z) : list Byte.byte :=
  le_bytes 2 0 ++ le_bytes 2 template ++ le_bytes 2 1 ++ le_bytes 2 0.

Definition symbol_bytes (s : string) : list Byte.byte :=
  let bs := String.list_byte_of_string s in
  le_bytes 1 (Z.of_nat (length bs)) ++ bs.

(** One trade entry: id, price and quantity mantissas, is_buyer_maker,
    is_best_match, then zero padding up to [block_length]. *)
Definition trade_entry (block_length id price qty : Z) : list Byte.byte :=
  let e := le_bytes 8 id ++ le_bytes 8 price ++ le_bytes 8 qty
           ++ le_bytes 1 1 ++ le_bytes 1 1 in
  take (Z.to_nat block_length) (e ++ repeat Byte.x00 (Z.to_nat block_length)).

(** A trade body with exponents (-2, -3) and the given entries
    [(id, price, qty)]. *)
Definition trade_body (block_length : Z) (entries : list (Z * Z * Z)) (sym : string)
  : list Byte.byte :=
  le_bytes 8 1700000000000000 ++ le_bytes 8 1700000000000001
  ++ le_bytes 1 (-2) ++ le_bytes 1 (-3)
  ++ le_bytes 2 block_length ++ le_bytes 4 (Z.of_nat (length entries))
  ++ concat (map (fun '(i, p, q) => trade_entry block_length i p q) entries)
  ++ symbol_bytes sym.

(** One depth level: price and quantity mantissas, zero padding up to
    [block_length]. *)
Definition depth_entry (block_length price qty : Z) : list Byte.byte :=
  take (Z.to_nat block_length)
       (le_bytes 8 price ++ le_bytes 8 qty ++ repeat Byte.x00 (Z.to_nat block_length)).

Definition depth_group (block_length : Z) (levels : list (Z * Z)) : list Byte.byte :=
  le_bytes 2 block_length ++ le_bytes 2 (Z.of_nat (length levels))
  ++ concat (map (fun '(p, q) => depth_entry block_length p q) levels).

(** A depth-snapshot body with exponents (-2, -3). *)
Definition depth_body (bids_block_length : Z) (bids : list (Z * Z))
    (asks_block_length : Z) (asks : list (Z * Z)) (sym : string) : list Byte.byte :=
  le_bytes 8 1700000000000000 ++ le_bytes 8 42
  ++ le_bytes 1 (-2) ++ le_bytes 1 (-3)
  ++ depth_group bids_block_length bids ++ depth_group asks_block_length asks
  ++ symbol_bytes sym.

(** Four trades in one frame, 26-byte entries: only the fourth one
    (id 4, price 3003.50) is decoded. *)
Definition trade_example : list Byte.byte :=
  trade_body 26 [(1, 300000, 5); (2, 300100, 6); (3, 300200, 7); (4, 300350, 8)] "BTCUSDT".

(** Five bids of 1.0 against one ask of 0.001: a top-5 ratio of 5000. *)
Definition depth_example : list Byte.byte :=
  depth_body 16 [(5000000, 1000); (4999900, 1000); (4999800, 1000); (4999700, 1000);
                 (4999600, 1000)]
             16 [(5000100, 1)] "BTCUSDT".

(** Levels carried in 18-byte blocks (two bytes beyond the 16 that are
    read). *)
Definition depth_stride18_example : list Byte.byte :=
  depth_body 18 [(5000000, 1000); (4999900, 2000)] 18 [(5000100, 3000)] "BTCUSDT".

End Binance.

(* ===================================================================== *)
(** * Proofs: the lazy depth decoder and its imbalance detector *)
Module DepthProofs.
Import LazyDepth Binance.

Lemma le_value_nonneg bs : 0 <= le_value bs.
Proof.
  induction bs as [|b bs IH]; simpl; [lia|].
  unfold byte_val. lia.
Qed.

Lemma read_bytes_spec c len bs c' :
  0 <= sc_pos c -> 0 <= len -> read_bytes c len = Ok (bs, c') ->
  Z.of_nat (length bs) = len /\ sc_pos c' = sc_pos c + len /\ sc_data c' = sc_data c.
Proof.
  intros Hp Hl H. unfold read_bytes in H.
  destruct (remaining c <? len) eqn:E; [discriminate|].
  injection H as <- <-. apply Z.ltb_ge in E.
  unfold remaining, sc_len in E. simpl. split; [|auto].
  rewrite length_take, length_drop. lia.
Qed.

Lemma read_le_spec w c v c' :
  read_le w c = Ok (v, c') ->
  0 <= v /\ sc_pos c' = sc_pos c + w /\ sc_data c' = sc_data c.
Proof.
  unfold read_le. destruct (_ <? _)%nat; [discriminate|].
  intros H; injection H as <- <-. simpl. auto using le_value_nonneg.
Qed.

Lemma read_u8_spec c v c' :
  0 <= sc_pos c -> read_u8 c = Ok (v, c') ->
  sc_pos c' = sc_pos c + 1 /\ sc_data c' = sc_data c.
Proof.
  unfold read_u8. intros Hp. destruct (remaining c <? 1); [discriminate|].
  destruct (read_bytes c 1) as [[bs c1]|] eqn:E; simpl; [|discriminate].
  intros H; injection H as <- <-. apply read_bytes_spec in E; lia || tauto.
Qed.

Lemma read_i8_spec c v c' :
  0 <= sc_pos c -> read_i8 c = Ok (v, c') ->
  sc_pos c' = sc_pos c + 1 /\ sc_data c' = sc_data c.
Proof.
  unfold read_i8. intros Hp.
  destruct (read_u8 c) as [[x c1]|] eqn:E; simpl; [|discriminate].
  intros H; injection H as <- <-. eauto using read_u8_spec.
Qed.

Lemma read_i64_le_spec c v c' :
  read_i64_le c = Ok (v, c') -> sc_pos c' = sc_pos c + 8 /\ sc_data c' = sc_data c.
Proof.
  unfold read_i64_le.
  destruct (read_le 8 c) as [[x c1]|] eqn:E; simpl; [|discriminate].
  intros H; injection H as <- <-. apply read_le_spec in E. tauto.
Qed.

Lemma read_group_size16_spec c bl n c' :
  read_group_size16 c = Ok (bl, n, c') ->
  0 <= bl /\ 0 <= n /\ sc_pos c' = sc_pos c + 4 /\ sc_data c' = sc_data c.
Proof.
  unfold read_group_size16, read_u16_le.
  destruct (read_le 2 c) as [[x c1]|] eqn:E1; simpl; [|discriminate].
  destruct (read_le 2 c1) as [[y c2]|] eqn:E2; simpl; [|discriminate].
  intros H; injection H as <- <- <-.
  apply read_le_spec in E1, E2.
  destruct E1 as (? & ? & ?), E2 as (? & ? & ?).
  repeat split; [lia|lia|lia|congruence].
Qed.

Lemma new_levels_spec data n bl qs d :
  new_levels data n bl qs = Ok d ->
  dl_data d = data /\ dl_count d = n /\ dl_block_length d = bl /\ 16 <= bl.
Proof.
  unfold new_levels. destruct (bl <? 16) eqn:E; [discriminate|].
  intros H; injection H as <-. apply Z.ltb_ge in E. simpl. auto.
Qed.

Lemma decode_levels_wf data ev :
  decode data = Ok ev -> levels_wf (ev_bids ev) /\ levels_wf (ev_asks ev).
Proof.
  unfold decode.
  set (c0 := {| sc_data := data; sc_pos := 0 |}).
  destruct (read_i64_le c0) as [[t c1]|] eqn:E1; simpl; [|discriminate].
  destruct (read_i64_le c1) as [[u c2]|] eqn:E2; simpl; [|discriminate].
  destruct (read_i8 c2) as [[pe c3]|] eqn:E3; simpl; [|discriminate].
  destruct (read_i8 c3) as [[qe c4]|] eqn:E4; simpl; [|discriminate].
  destruct (read_group_size16 c4) as [[[bbl nb] c5]|] eqn:E5; simpl; [|discriminate].
  destruct (read_bytes c5 (bbl * nb)) as [[bd c6]|] eqn:E6; simpl; [|discriminate].
  destruct (new_levels bd nb bbl _) as [bids|] eqn:E7; simpl; [|discriminate].
  destruct (read_group_size16 c6) as [[[abl na] c8]|] eqn:E8; simpl; [|discriminate].
  destruct (read_bytes c8 (abl * na)) as [[ad c9]|] eqn:E9; simpl; [|discriminate].
  destruct (new_levels ad na abl _) as [asks|] eqn:E10; simpl; [|discriminate].
  destruct (read_var_string8 c9) as [[sym c11]|] eqn:E11; simpl; [|discriminate].
  intros H; injection H as <-. simpl.
  apply read_i64_le_spec in E1 as [P1 _]. apply read_i64_le_spec in E2 as [P2 _].
  simpl in P1.
  apply read_i8_spec in E3 as [P3 _]; [|lia].
  apply read_i8_spec in E4 as [P4 _]; [|lia].
  apply read_group_size16_spec in E5 as (B5 & N5 & P5 & _).
  apply read_bytes_spec in E6 as (L6 & P6 & _); [|lia|nia].
  apply new_levels_spec in E7 as (D7 & C7 & BL7 & ?).
  apply read_group_size16_spec in E8 as (B8 & N8 & P8 & _).
  apply read_bytes_spec in E9 as (L9 & _ & _); [|lia|nia].
  apply new_levels_spec in E10 as (D10 & C10 & BL10 & ?).
  unfold levels_wf. rewrite D7, C7, BL7, D10, C10, BL10. lia.
Qed.

Lemma sum_loop_ok d fuel idx offset t5 t10 ta :
  16 <= dl_block_length d -> 0 <= offset ->
  offset + Z.of_nat fuel * dl_block_length d <= Z.of_nat (length (dl_data d)) ->
  exists r, sum_loop d fuel idx offset t5 t10 ta = Ok r.
Proof.
  revert idx offset t5 t10 ta.
  induction fuel as [|fuel IH]; intros idx offset t5 t10 ta Hbl Ho Hlen; simpl.
  - eauto.
  - destruct (offset + 8 + 8 >? _) eqn:E; [apply Z.gtb_lt in E; lia|].
    unfold read_i64_le_from.
    destruct (length (drop _ _) <? 8)%nat eqn:E2.
    { apply Nat.ltb_lt in E2. rewrite length_drop in E2. lia. }
    simpl. apply IH; lia.
Qed.

Lemma sums_ok d : levels_wf d -> exists r, sum_qtys_top5_top10_all d = Ok r.
Proof.
  intros (Hbl & Hc & Hl). unfold sum_qtys_top5_top10_all.
  apply sum_loop_ok; [lia|lia|]. rewrite Z2Nat.id by lia. lia.
Qed.

(** C1: whenever a depth-snapshot body decodes, its six lazy sums exist; if
    the top-5 ask sum is <= 0 [print_update] emits no alert, and otherwise
    it emits one exactly when one of the three ratios is above 100.0 or
    below 0.01 (an alert sender being attached). *)
Theorem print_update_alert_iff_imbalanced data ev now :
  decode data = Ok ev ->
  exists b5 b10 ball a5 a10 aall,
    sum_qtys_top5_top10_all (ev_bids ev) = Ok (b5, b10, ball) /\
    sum_qtys_top5_top10_all (ev_asks ev) = Ok (a5, a10, aall) /\
    (PrimFloat.leb a5 0%float = true -> print_update true now ev = None) /\
    (PrimFloat.leb a5 0%float = false ->
       (is_Some (print_update true now ev) <->
        imbalanced (PrimFloat.div b5 a5) (PrimFloat.div b10 a10)
                   (PrimFloat.div ball aall) = true)).
Proof.
  intros H. apply decode_levels_wf in H as [Hb Ha].
  destruct (sums_ok _ Hb) as [[[b5 b10] ball] Eb].
  destruct (sums_ok _ Ha) as [[[a5 a10] aall] Ea].
  exists b5, b10, ball, a5, a10, aall.
  unfold print_update. rewrite Eb, Ea.
  split; [reflexivity|]. split; [reflexivity|]. split.
  - intros Hle. rewrite Hle. reflexivity.
  - intros Hle. rewrite Hle.
    destruct (imbalanced _ _ _); split; intros Hs; try reflexivity.
    + eexists; reflexivity.
    + destruct Hs; discriminate.
    + discriminate.
Qed.

Lemma print_update_alert_iff_imbalanced_witness :
  exists ev, decode depth_example = Ok ev /\ is_Some (print_update true 0 ev).
Proof.
  destruct (decode depth_example) as [ev|e] eqn:E; [|vm_compute in E; discriminate].
  exists ev. split; [reflexivity|].
  pose proof E as E'. vm_compute in E'. injection E' as <-.
  destruct (print_update_alert_iff_imbalanced _ _ 0 E)
    as (b5 & b10 & ball & a5 & a10 & aall & Eb & Ea & _ & Hiff).
  vm_compute in Eb, Ea. injection Eb as <- <- <-. injection Ea as <- <- <-.
  apply (proj2 (Hiff eq_refl)). vm_compute. reflexivity.
Defined.

(** C8: on a depth-snapshot body whose levels come in 18-byte blocks, the
    lazy view (which steps by the declared block length) sums the bids to
    3.0 for the top 5, the top 10 and all levels, while the eager decoder
    of [messages.rs] (which reads 16 bytes per level and ignores the block
    length) fails on the same bytes, so no eager sum exists to equal it. *)
Theorem lazy_and_eager_depth_sums_diverge :
  (let* ev := decode depth_stride18_example in
   sum_qtys_top5_top10_all (ev_bids ev)) = Ok (3%float, 3%float, 3%float) /\
  SbeMessages.decode_depth_snapshot depth_stride18_example = Err SbeDecode.
Proof. split; vm_compute; reflexivity. Qed.

End DepthProofs.

(* ===================================================================== *)
(** * Proofs: the trade decoder *)
Module TradeProofs.
Import Sbe Binance.

Lemma io_read_spec k c bs c' :
  io_read k c = Ok (bs, c') ->
  bs = take k (drop (Z.to_nat (ic_pos c)) (ic_data c)) /\
  ic_pos c' = ic_pos c + Z.of_nat k /\ ic_data c' = ic_data c.
Proof.
  unfold io_read. destruct (_ <? k)%nat; [discriminate|].
  intros H; injection H as <- <-. simpl. auto.
Qed.

Lemma io_read_i64_spec c v c' :
  io_read_i64 c = Ok (v, c') ->
  v = to_signed 64 (le_value (take 8 (drop (Z.to_nat (ic_pos c)) (ic_data c)))) /\
  ic_pos c' = ic_pos c + 8 /\ ic_data c' = ic_data c.
Proof.
  unfold io_read_i64. destruct (io_read 8 c) as [[bs c1]|] eqn:E; simpl; [|discriminate].
  intros H; injection H as <- <-. apply io_read_spec in E as (-> & ? & ?). auto.
Qed.

Lemma io_read_le_spec (k : nat) (f : list Byte.byte -> Z) c v c' :
  (let* '(bs, c') := io_read k c in Ok (f bs, c')) = Ok (v, c') ->
  v = f (take k (drop (Z.to_nat (ic_pos c)) (ic_data c))) /\
  ic_pos c' = ic_pos c + Z.of_nat k /\ ic_data c' = ic_data c.
Proof.
  destruct (io_read k c) as [[bs c1]|] eqn:E; simpl; [|discriminate].
  intros H; injection H as <- <-. apply io_read_spec in E as (-> & ? & ?). auto.
Qed.

Lemma read_group_size_spec c bl n c' :
  read_group_size c = Ok (bl, n, c') ->
  bl = le_value (take 2 (drop (Z.to_nat (ic_pos c)) (ic_data c))) /\
  n = le_value (take 4 (drop (Z.to_nat (ic_pos c + 2)) (ic_data c))) /\
  ic_pos c' = ic_pos c + 6 /\ ic_data c' = ic_data c.
Proof.
  unfold read_group_size.
  destruct (io_read_u16 c) as [[x c1]|] eqn:E1; simpl; [|discriminate].
  destruct (io_read_u32 c1) as [[y c2]|] eqn:E2; simpl; [|discriminate].
  intros H; injection H as <- <- <-.
  apply io_read_le_spec in E1 as (-> & P1 & D1).
  apply io_read_le_spec in E2 as (-> & P2 & D2).
  rewrite P2, D2, P1, D1. simpl. repeat split; lia.
Qed.

Lemma decode_last_trade_many data_len bl n pe qe c t c' :
  n > 1 ->
  decode_last_trade data_len bl n pe qe c = Ok (Some t, c') ->
  let p := ic_pos c + (n - 1) * bl in
  trade_id t = to_signed 64 (le_value (take 8 (drop (Z.to_nat p) (ic_data c)))) /\
  trade_price t =
    decode_decimal (to_signed 64 (le_value (take 8 (drop (Z.to_nat (p + 8)) (ic_data c))))) pe.
Proof.
  intros Hn. unfold decode_last_trade.
  replace (n >? 0) with true by (symmetry; apply Z.gtb_lt; lia).
  replace (n >? 1) with true by (symmetry; apply Z.gtb_lt; lia).
  destruct (ic_pos c + (n - 1) * bl <=? data_len); simpl; [|discriminate].
  destruct (usize_sub _ _) as [r|]; simpl; [|discriminate].
  destruct (r <? bl); [discriminate|].
  destruct (io_read_i64 _) as [[id c2]|] eqn:E2; simpl; [|discriminate].
  destruct (io_read_i64 c2) as [[pm c3]|] eqn:E3; simpl; [|discriminate].
  destruct (io_read_i64 c3) as [[qm c4]|] eqn:E4; simpl; [|discriminate].
  destruct (io_read_u8 c4) as [[ibm c5]|] eqn:E5; simpl; [|discriminate].
  destruct (usize_sub _ _) as [rb|]; simpl; [|discriminate].
  destruct (_ : result IoCursor) as [c6|]; simpl; [|discriminate].
  intros H; injection H as <- _. simpl.
  apply io_read_i64_spec in E2 as (-> & P2 & D2).
  apply io_read_i64_spec in E3 as (-> & _ & _).
  simpl. rewrite P2, D2. simpl. auto.
Qed.

(** C7: when a trade body decodes and its group header declares
    [num_trades > 1] entries of [block_length] bytes, the decoded trade list
    has exactly one element, read at byte [24 + (num_trades - 1) *
    block_length]: the entries before it ([(num_trades - 1) * block_length]
    bytes) are skipped and its id and price are those of the last entry. *)
Theorem decode_trade_parses_last_entry data ev :
  decode_trade data = Ok ev ->
  let block_length := le_value (take 2 (drop 18 data)) in
  let num_trades := le_value (take 4 (drop 20 data)) in
  let price_exponent := to_signed 8 (le_value (take 1 (drop 16 data))) in
  let last := 24 + (num_trades - 1) * block_length in
  num_trades > 1 ->
  exists t, te_trades ev = [t] /\
    trade_id t = to_signed 64 (le_value (take 8 (drop (Z.to_nat last) data))) /\
    trade_price t =
      decode_decimal (to_signed 64 (le_value (take 8 (drop (Z.to_nat (last + 8)) data))))
                     price_exponent.
Proof.
  unfold decode_trade.
  set (c0 := {| ic_data := data; ic_pos := 0 |}).
  destruct (io_read_i64 c0) as [[t1 c1]|] eqn:E1; simpl; [|discriminate].
  destruct (io_read_i64 c1) as [[t2 c2]|] eqn:E2; simpl; [|discriminate].
  destruct (io_read_i8 c2) as [[pe c3]|] eqn:E3; simpl; [|discriminate].
  destruct (io_read_i8 c3) as [[qe c4]|] eqn:E4; simpl; [|discriminate].
  destruct (read_group_size c4) as [[[bl n] c5]|] eqn:E5; simpl; [|discriminate].
  destruct (decode_last_trade _ bl n pe qe c5) as [[lt c6]|] eqn:E6; simpl; [|discriminate].
  destruct (usize_sub _ _) as [r|]; simpl; [|discriminate].
  destruct (r <? 1); [discriminate|].
  destruct (read_var_string8 c6) as [[sym c7]|]; simpl; [|discriminate].
  intros H; injection H as <-. simpl. intros Hn.
  apply io_read_i64_spec in E1 as (_ & P1 & D1).
  apply io_read_i64_spec in E2 as (_ & P2 & D2).
  apply io_read_le_spec in E3 as (Epe & P3 & D3).
  apply io_read_le_spec in E4 as (_ & P4 & D4).
  apply read_group_size_spec in E5 as (Ebl & En & P5 & D5).
  rewrite P4, D4, P3, D3, P2, D2, P1, D1 in Ebl, En.
  rewrite P2, D2, P1, D1 in Epe.
  subst c0. cbn [ic_pos ic_data] in Ebl, En, Epe.
  change (Z.to_nat (0 + 8 + 8 + Z.of_nat 1 + Z.of_nat 1)) with 18%nat in Ebl.
  change (Z.to_nat (0 + 8 + 8 + Z.of_nat 1 + Z.of_nat 1 + 2)) with 20%nat in En.
  change (Z.to_nat (0 + 8 + 8)) with 16%nat in Epe.
  rewrite <- Ebl, <- En, <- Epe. rewrite <- En in Hn.
  destruct lt as [t|].
  2:{ exfalso. unfold decode_last_trade in E6.
      replace (n >? 0) with true in E6 by (symmetry; apply Z.gtb_lt; lia).
      replace (n >? 1) with true in E6 by (symmetry; apply Z.gtb_lt; lia).
      unfold bind in E6.
      repeat match type of E6 with
      | context [match ?x with _ => _ end] => destruct x; simpl in E6; try discriminate
      end. }
  apply decode_last_trade_many in E6 as [Hid Hp]; [|exact Hn].
  rewrite P5, D5, P4, D4, P3, D3, P2, D2, P1, D1 in Hid, Hp. simpl in Hid, Hp.
  exists t. split; [reflexivity|]. split; assumption.
Qed.

Lemma decode_trade_parses_last_entry_witness :
  le_value (take 2 (drop 18 trade_example)) = 26 /\
  le_value (take 4 (drop 20 trade_example)) = 4 /\
  exists ev, decode_trade trade_example = Ok ev /\
  exists t, te_trades ev = [t] /\ trade_id t = 4 /\
            trade_price t = decode_decimal 300350 (-2).
Proof.
  split; [vm_compute; reflexivity|]. split; [vm_compute; reflexivity|].
  destruct (decode_trade trade_example) as [ev|e] eqn:E; [|vm_compute in E; discriminate].
  exists ev. split; [reflexivity|].
  pose proof (decode_trade_parses_last_entry _ _ E) as H. cbv zeta in H.
  destruct H as (t & Ht & Hid & Hp); [vm_compute; reflexivity|].
  exists t. split; [exact Ht|]. rewrite Hid, Hp. split; vm_compute; reflexivity.
Defined.

End TradeProofs.

(* ===================================================================== *)
(** * Proofs: the SBE reader task *)
Module ReaderProofs.
Import Sbe SbeMessages Binance.

(** C2: a binary frame that fails SBE decoding (an unknown template id
    included) makes [recv_sbe] return the error, and the read loop of
    [BinanceClient::run] returns it at once: nothing after that frame is
    read or forwarded. *)
Theorem decode_error_ends_reader rx_open data rest e :
  sbe_decode data = Err e ->
  run_sbe rx_open (Some (Binary data) :: rest) = ([], Returned (Err e)).
Proof.
  intros H. simpl. rewrite H. reflexivity.
Qed.

Lemma decode_error_ends_reader_witness :
  sbe_decode (header 9999 ++ trade_example) = Err SbeDecode /\
  fst (run_sbe true [Some (Binary (header 10000 ++ trade_example))]) <> [] /\
  run_sbe true [Some (Binary (header 9999 ++ trade_example));
                Some (Binary (header 10000 ++ trade_example))]
  = ([], Returned (Err SbeDecode)).
Proof.
  split; [vm_compute; reflexivity|]. split; [vm_compute; discriminate|].
  apply decode_error_ends_reader. vm_compute. reflexivity.
Defined.

End ReaderProofs.

(* ===================================================================== *)
(** * Proofs: order-book deltas *)
Module BookProofs.
Import Book.

Lemma saturating_add_in_range a b :
  I64_MIN <= a + b <= I64_MAX -> i64_saturating_add a b = a + b.
Proof. unfold i64_saturating_add. lia. Qed.

Lemma saturating_add_bounded a b :
  I64_MIN <= i64_saturating_add a b <= I64_MAX.
Proof. unfold i64_saturating_add, I64_MIN, I64_MAX. lia. Qed.

Lemma position_split {A} (p : A -> bool) l i :
  position p l = Some i ->
  exists pre x post, l = pre ++ x :: post /\ length pre = i /\
    List.filter p pre = [] /\ p x = true.
Proof.
  revert i. induction l as [|y l IH]; intros i H; simpl in H; [discriminate|].
  destruct (p y) eqn:Ey.
  - injection H as <-. exists [], y, l. auto.
  - destruct (position p l) as [j|] eqn:E; simpl in H; [|discriminate].
    injection H as <-. destruct (IH j eq_refl) as (pre & x & post & -> & Hl & Hf & Hx).
    exists (y :: pre), x, post. simpl. rewrite Ey, Hf. auto.
Qed.

Lemma position_none {A} (p : A -> bool) l :
  position p l = None -> List.filter p l = [].
Proof.
  induction l as [|y l IH]; simpl; [auto|].
  destruct (p y); [discriminate|]. destruct (position p l); [discriminate|auto].
Qed.

Lemma filter_nil_position {A} (p : A -> bool) l :
  List.filter p l = [] -> position p l = None.
Proof.
  induction l as [|y l IH]; simpl; [auto|].
  destruct (p y); [discriminate|]. intros H. rewrite IH; auto.
Qed.

Lemma insert_by_perm {A} (cmp : A -> A -> comparison) x l :
  Permutation (insert_by cmp x l) (x :: l).
Proof.
  induction l as [|y l IH]; simpl; [auto|].
  destruct (cmp x y); auto.
  eapply perm_trans; [apply perm_skip, IH|]. apply perm_swap.
Qed.

Lemma sort_by_perm {A} (cmp : A -> A -> comparison) l :
  Permutation (sort_by cmp l) l.
Proof.
  unfold sort_by. induction l as [|x l IH]; simpl; [auto|].
  eapply perm_trans; [apply insert_by_perm|]. auto.
Qed.

Lemma sort_by_length {A} (cmp : A -> A -> comparison) l :
  length (sort_by cmp l) = length l.
Proof. apply Permutation_length, sort_by_perm. Qed.

Lemma filter_perm {A} (f : A -> bool) l l' :
  Permutation l l' -> Permutation (List.filter f l) (List.filter f l').
Proof.
  induction 1 as [|x l l' _ IH|x y l|l l' l'' _ IH1 _ IH2]; simpl.
  - constructor.
  - destruct (f x); auto.
  - destruct (f x), (f y); auto using perm_swap.
  - eauto using perm_trans.
Qed.

Lemma levels_at_sort price cmp ls :
  (length (levels_at price ls) <= 1)%nat ->
  levels_at price (sort_by cmp ls) = levels_at price ls.
Proof.
  intros Hl. unfold levels_at in *.
  assert (Hp : Permutation (List.filter (price_matches price) (sort_by cmp ls))
                           (List.filter (price_matches price) ls))
    by (apply filter_perm, sort_by_perm).
  destruct (List.filter (price_matches price) ls) as [|a [|b r]]; simpl in Hl.
  - apply Permutation_nil, Permutation_sym, Hp.
  - apply Permutation_length_1_inv, Permutation_sym, Hp.
  - lia.
Qed.

Lemma update_levels_match levels p delta idx l :
  position (price_matches p) levels = Some idx -> levels !! idx = Some l ->
  update_levels levels p delta =
    (if i64_saturating_add (quantity l) delta <=? 0 then delete idx levels
     else <[idx := {| price := price l; quantity := i64_saturating_add (quantity l) delta |}]> levels).
Proof. intros Hp Hl. unfold update_levels. rewrite Hp, Hl. reflexivity. Qed.

Lemma price_matches_price p q q' :
  price_matches p {| price := p; quantity := q |} = price_matches p {| price := p; quantity := q' |}.
Proof. reflexivity. Qed.

Lemma levels_at_update ls p q d :
  price_matches p {| price := p; quantity := 0 |} = true ->
  levels_at p ls = level_set p q -> 0 <= q -> 0 <= q + d <= I64_MAX ->
  levels_at p (update_levels ls p d) = level_set p (q + d).
Proof.
  intros Hpp Hls Hq Hd. unfold levels_at, level_set in *.
  assert (Hm : forall q', price_matches p {| price := p; quantity := q' |} = true)
    by (intros q'; rewrite (price_matches_price p q' 0); exact Hpp).
  destruct (q =? 0) eqn:Eq.
  - apply Z.eqb_eq in Eq. subst q.
    unfold update_levels. rewrite (filter_nil_position _ _ Hls).
    destruct (d >? 0) eqn:Ed.
    + apply Z.gtb_lt in Ed. rewrite List.filter_app, Hls. simpl. rewrite Hm.
      replace (0 + d =? 0) with false by lia. reflexivity.
    + assert (d = 0).
      { rewrite Z.gtb_ltb in Ed. apply Z.ltb_ge in Ed. lia. }
      subst d.
      rewrite Hls. reflexivity.
  - apply Z.eqb_neq in Eq.
    destruct (position (price_matches p) ls) as [i|] eqn:Ep.
    2:{ rewrite (position_none _ _ Ep) in Hls. discriminate. }
    destruct (position_split _ _ _ Ep) as (pre & x & post & Els & Hlen & Hpre & Hx).
    rewrite Els in Hls. rewrite List.filter_app, Hpre in Hls. simpl in Hls. rewrite Hx in Hls.
    injection Hls as -> Hpost.
    assert (Hlk : ls !! i = Some {| price := p; quantity := q |})
      by (rewrite Els, <- Hlen; apply list_lookup_middle; auto).
    rewrite (update_levels_match _ _ _ _ _ Ep Hlk). simpl.
    rewrite saturating_add_in_range by (unfold I64_MIN, I64_MAX in *; lia).
    rewrite Els, <- Hlen.
    destruct (q + d <=? 0) eqn:Eqd.
    + apply Z.leb_le in Eqd. replace (q + d =? 0) with true by lia.
      rewrite delete_middle, List.filter_app, Hpre, Hpost. reflexivity.
    + apply Z.leb_gt in Eqd. replace (q + d =? 0) with false by lia.
      rewrite <- (Nat.add_0_r (length pre)), insert_app_r. simpl.
      rewrite List.filter_app, Hpre. simpl. rewrite Hm, Hpost. reflexivity.
Qed.

Lemma refresh_single_yes_bids b : yes_bids (refresh_single b) = sort_by cmp_desc (yes_bids b).
Proof. reflexivity. Qed.

Lemma yes_bids_default st t :
  yes_bids (default (empty_book t) (orderbooks st !! t)) = yes_bids_at st t.
Proof. unfold yes_bids_at. destruct (orderbooks st !! t); reflexivity. Qed.

Lemma yes_bids_after_delta st t s p d :
  F64.parse s = Some p ->
  yes_bids_at (apply_delta st (yes_delta t s d)) t =
    sort_by cmp_desc (update_levels (yes_bids_at st t) p d).
Proof.
  intros Hp. unfold apply_delta. simpl. rewrite Hp.
  unfold yes_bids_at at 1. simpl. rewrite lookup_insert.
  case_decide; [|congruence]. simpl.
  rewrite yes_bids_default. reflexivity.
Qed.

(** C5: on a side whose matching level (within 1e-12 of [p]) sits at
    [idx], a delta whose sum with the quantity stays in the i64 range
    adds to the quantity, and the level is removed when the sum is <= 0;
    and from an empty YES side, +5 at "0.53" gives the single YES bid
    {0.53, 5}, after which -5 at "0.53" empties the YES side again. *)
Theorem delta_updates_matching_level levels p delta idx l st t :
  position (price_matches p) levels = Some idx ->
  levels !! idx = Some l ->
  I64_MIN <= quantity l + delta <= I64_MAX ->
  yes_bids_at st t = [] ->
  ((quantity l + delta <= 0 -> update_levels levels p delta = delete idx levels) /\
   (0 < quantity l + delta ->
      update_levels levels p delta =
        <[idx := {| price := price l; quantity := quantity l + delta |}]> levels)) /\
  (let st1 := apply_delta st (yes_delta t "0.53" 5) in
   let st2 := apply_delta st1 (yes_delta t "0.53" (-5)) in
   yes_bids_at st1 t = [{| price := 0.53; quantity := 5 |}] /\ yes_bids_at st2 t = []).
Proof.
  intros Hp Hl Hr Hst. split.
  - rewrite (update_levels_match _ _ _ _ _ Hp Hl), saturating_add_in_range by exact Hr.
    split; intros H.
    + replace (quantity l + delta <=? 0) with true by lia. reflexivity.
    + replace (quantity l + delta <=? 0) with false by lia. reflexivity.
  - assert (Hparse : F64.parse "0.53" = Some 0.53%float) by (vm_compute; reflexivity).
    simpl. rewrite !(yes_bids_after_delta _ _ _ _ _ Hparse), Hst.
    vm_compute. auto.
Qed.

Lemma yes_bids_after_deltas st t s p q ds :
  F64.parse s = Some p ->
  price_matches p {| price := p; quantity := 0 |} = true ->
  0 <= q ->
  levels_at p (yes_bids_at st t) = level_set p q ->
  forallb in_i64_nonneg (running_totals q ds) = true ->
  levels_at p (yes_bids_at (apply_yes_deltas st t s ds) t) =
    level_set p (q + fold_right Z.add 0 ds).
Proof.
  revert st q. induction ds as [|d ds IH]; intros st q Hs Hpp Hq Hl Hr.
  - simpl. rewrite Z.add_0_r. exact Hl.
  - simpl in Hr. apply andb_prop in Hr as [Hd Hr].
    unfold in_i64_nonneg in Hd. apply andb_prop in Hd as [Hd1 Hd2].
    apply Z.leb_le in Hd1, Hd2.
    unfold apply_yes_deltas. simpl. fold (apply_yes_deltas (apply_delta st (yes_delta t s d)) t s ds).
    rewrite (IH (apply_delta st (yes_delta t s d)) (q + d) Hs Hpp); [| lia | | exact Hr].
    { simpl. f_equal. lia. }
    rewrite (yes_bids_after_delta _ _ _ _ _ Hs).
    rewrite levels_at_sort.
    + apply levels_at_update; auto; lia.
    + rewrite (levels_at_update _ _ q) by (auto; lia).
      unfold level_set. destruct (_ =? 0); simpl; lia.
Qed.

Lemma levels_at_perm p l l' :
  Permutation l l' -> (length (levels_at p l') <= 1)%nat -> levels_at p l = levels_at p l'.
Proof.
  intros Hp Hl. unfold levels_at in *.
  pose proof (filter_perm (price_matches p) _ _ Hp) as Hf.
  destruct (List.filter (price_matches p) l') as [|a [|b r]]; simpl in Hl.
  - apply Permutation_nil, Permutation_sym, Hf.
  - apply Permutation_length_1_inv, Permutation_sym, Hf.
  - lia.
Qed.

Lemma side_bids_default st t side :
  side_bids (default (empty_book t) (orderbooks st !! t)) side = side_bids_at st t side.
Proof.
  unfold side_bids_at, side_bids. destruct (orderbooks st !! t); simpl; [reflexivity|].
  case_bool_decide; reflexivity.
Qed.

Lemma side_bids_after_apply_delta st t s side p d :
  F64.parse s = Some p ->
  Permutation (side_bids_at (apply_delta st (side_delta t s side d)) t side)
              (update_levels (side_bids_at st t side) p d).
Proof.
  intros Hp. unfold apply_delta. simpl. rewrite Hp.
  unfold side_bids_at at 1. simpl. rewrite lookup_insert.
  case_decide; [|congruence]. simpl. rewrite <- side_bids_default.
  unfold side_bids. case_bool_decide; simpl; apply sort_by_perm.
Qed.

Lemma side_bids_after_client_delta st t s side p d :
  F64.parse s = Some p ->
  Permutation (side_bids_at (Client.process_orderbook_delta st (side_delta t s side d)) t side)
              (update_levels (side_bids_at st t side) p d).
Proof.
  intros Hp. unfold Client.process_orderbook_delta. simpl. rewrite Hp.
  unfold side_bids_at at 1. simpl. rewrite lookup_insert.
  case_decide; [|congruence]. simpl. rewrite <- side_bids_default.
  unfold side_bids. case_bool_decide; simpl;
    (etransitivity; [apply sort_by_perm|]); apply sort_by_perm.
Qed.

Lemma levels_at_update_nomatch ls p d :
  price_matches p {| price := p; quantity := 0 |} = false ->
  levels_at p ls = [] -> levels_at p (update_levels ls p d) = [].
Proof.
  intros Hpp Hls. unfold update_levels. rewrite (filter_nil_position _ _ Hls).
  destruct (d >? 0); [|exact Hls].
  unfold levels_at in *. rewrite List.filter_app, Hls. simpl.
  rewrite (price_matches_price p d 0), Hpp. reflexivity.
Qed.

Lemma levels_at_idem p l : levels_at p (levels_at p l) = levels_at p l.
Proof.
  unfold levels_at. induction l as [|a l IH]; [reflexivity|]. simpl.
  destruct (price_matches p a) eqn:E; simpl; [rewrite E|]; congruence.
Qed.

Lemma level_set_matches p q :
  levels_at p (level_set p q) = level_set p q ->
  q = 0 \/ price_matches p {| price := p; quantity := 0 |} = true.
Proof.
  unfold levels_at, level_set. destruct (q =? 0) eqn:E; [intros _; left; lia|].
  intros H. simpl in H. rewrite (price_matches_price p q 0) in H.
  destruct (price_matches p _); [right; reflexivity | discriminate].
Qed.

Section NetZero.
Variable handler : KalshiState -> KalshiOrderbookDelta -> KalshiState.
Variables (t s side : string) (p : float).
Hypothesis Hs : F64.parse s = Some p.
Hypothesis handler_step : forall st d,
  Permutation (side_bids_at (handler st (side_delta t s side d)) t side)
              (update_levels (side_bids_at st t side) p d).

Lemma side_deltas_level_set st q ds :
  price_matches p {| price := p; quantity := 0 |} = true ->
  0 <= q ->
  levels_at p (side_bids_at st t side) = level_set p q ->
  forallb in_i64_nonneg (running_totals q ds) = true ->
  levels_at p (side_bids_at (apply_side_deltas handler st t s side ds) t side) =
    level_set p (q + fold_right Z.add 0 ds).
Proof.
  intros Hpp. revert st q. induction ds as [|d ds IH]; intros st q Hq Hl Hr.
  - simpl. rewrite Z.add_0_r. exact Hl.
  - simpl in Hr. apply andb_prop in Hr as [Hd Hr].
    unfold in_i64_nonneg in Hd. apply andb_prop in Hd as [Hd1 Hd2].
    apply Z.leb_le in Hd1, Hd2.
    unfold apply_side_deltas. simpl.
    fold (apply_side_deltas handler (handler st (side_delta t s side d)) t s side ds).
    rewrite (IH (handler st (side_delta t s side d)) (q + d)); [| lia | | exact Hr].
    { simpl. f_equal. lia. }
    assert (Hu : levels_at p (update_levels (side_bids_at st t side) p d) = level_set p (q + d))
      by (apply levels_at_update; auto; lia).
    rewrite (levels_at_perm _ _ _ (handler_step st d)); [exact Hu|].
    rewrite Hu. unfold level_set. destruct (_ =? 0); simpl; lia.
Qed.

Lemma side_deltas_nomatch st ds :
  price_matches p {| price := p; quantity := 0 |} = false ->
  levels_at p (side_bids_at st t side) = [] ->
  levels_at p (side_bids_at (apply_side_deltas handler st t s side ds) t side) = [].
Proof.
  intros Hpp. revert st. induction ds as [|d ds IH]; intros st Hl; [exact Hl|].
  unfold apply_side_deltas. simpl.
  fold (apply_side_deltas handler (handler st (side_delta t s side d)) t s side ds).
  apply IH.
  assert (Hu : levels_at p (update_levels (side_bids_at st t side) p d) = [])
    by (apply levels_at_update_nomatch; auto).
  rewrite (levels_at_perm _ _ _ (handler_step st d)); [exact Hu|]. rewrite Hu. simpl. lia.
Qed.

Lemma side_deltas_restore st q0 ds :
  0 <= q0 ->
  levels_at p (side_bids_at st t side) = level_set p q0 ->
  forallb in_i64_nonneg (running_totals q0 ds) = true ->
  fold_right Z.add 0 ds = 0 ->
  levels_at p (side_bids_at (apply_side_deltas handler st t s side ds) t side) =
    levels_at p (side_bids_at st t side).
Proof.
  intros Hq Hl Hr Hz.
  destruct (price_matches p {| price := p; quantity := 0 |}) eqn:Hpp.
  - rewrite (side_deltas_level_set st q0 ds Hpp Hq Hl Hr), Hz, Z.add_0_r. symmetry. exact Hl.
  - assert (Hq0 : q0 = 0).
    { assert (Hm : levels_at p (level_set p q0) = level_set p q0)
        by (rewrite <- Hl; apply levels_at_idem).
      destruct (level_set_matches p q0 Hm) as [H|H]; [exact H|congruence]. }
    subst q0. rewrite Hl. apply side_deltas_nomatch; [exact Hpp|exact Hl].
Qed.

End NetZero.

(** C6 (amended): on either delta handler (the event processor's
    [handle_orderbook_delta] and the client's [process_orderbook_delta])
    and either side, a sequence of deltas at one price string [s] (parsed
    to [p]) whose sum is zero leaves the levels matching [p] on that side
    as they were, provided those levels are none or the single level
    [{p, q0}] at exactly price [p] ([level_set p q0], [q0 >= 0]) and the
    running quantity [q0 + d1 + ... + dk] never goes below zero nor above
    i64::MAX along the way. *)
Theorem net_zero_deltas_restore_level st t s side p q0 ds :
  F64.parse s = Some p ->
  0 <= q0 ->
  levels_at p (side_bids_at st t side) = level_set p q0 ->
  forallb in_i64_nonneg (running_totals q0 ds) = true ->
  fold_right Z.add 0 ds = 0 ->
  levels_at p (side_bids_at (apply_side_deltas apply_delta st t s side ds) t side) =
    levels_at p (side_bids_at st t side) /\
  levels_at p (side_bids_at (apply_side_deltas Client.process_orderbook_delta st t s side ds) t side) =
    levels_at p (side_bids_at st t side).
Proof.
  intros Hs Hq Hl Hr Hz. split.
  - apply (side_deltas_restore apply_delta t s side p) with q0; auto.
    intros st' d. apply side_bids_after_apply_delta, Hs.
  - apply (side_deltas_restore Client.process_orderbook_delta t s side p) with q0; auto.
    intros st' d. apply side_bids_after_client_delta, Hs.
Qed.

(** C10: a positive delta on a level of quantity i64::MAX leaves the side
    unchanged (the level keeps i64::MAX), and the saturating addition
    always stays within the i64 range. *)
Theorem saturating_delta_keeps_i64_max levels p delta idx l :
  position (price_matches p) levels = Some idx ->
  levels !! idx = Some l ->
  quantity l = I64_MAX -> 0 < delta ->
  update_levels levels p delta = levels /\
  (forall q d, I64_MIN <= i64_saturating_add q d <= I64_MAX).
Proof.
  intros Hp Hl Hq Hd. split; [|apply saturating_add_bounded].
  rewrite (update_levels_match _ _ _ _ _ Hp Hl), Hq.
  replace (i64_saturating_add I64_MAX delta) with I64_MAX
    by (unfold i64_saturating_add, I64_MIN, I64_MAX; lia).
  replace (I64_MAX <=? 0) with false by (unfold I64_MAX; lia).
  rewrite <- Hq. destruct l as [pr qq]. simpl.
  apply list_insert_id. exact Hl.
Qed.

Lemma delta_updates_matching_level_witness :
  update_levels [{| price := 0.53; quantity := 5 |}] 0.53 (-5) = [] /\
  yes_bids_at (apply_delta empty_state (yes_delta "KXBTC15M-X" "0.53" 5)) "KXBTC15M-X"
    = [{| price := 0.53; quantity := 5 |}].
Proof.
  assert (Hp : position (price_matches 0.53) [{| price := 0.53; quantity := 5 |}] = Some 0%nat)
    by (vm_compute; reflexivity).
  assert (Hl : [{| price := 0.53; quantity := 5 |}] !! 0%nat = Some {| price := 0.53; quantity := 5 |})
    by reflexivity.
  assert (Hr : I64_MIN <= quantity {| price := 0.53; quantity := 5 |} + (-5) <= I64_MAX)
    by (simpl; unfold I64_MIN, I64_MAX; lia).
  assert (Hst : yes_bids_at empty_state "KXBTC15M-X" = []) by reflexivity.
  destruct (delta_updates_matching_level _ _ _ _ _ _ _ Hp Hl Hr Hst) as [[Hle _] [H1 _]].
  split; [|exact H1]. rewrite Hle by (simpl; lia). reflexivity.
Defined.

(** The deltas -5 then +5 at "0.53" sum to zero, yet from an empty YES
    side they leave the level {0.53, 5}: the -5 finds no level and is
    dropped, the +5 creates one. *)
Lemma net_zero_deltas_leave_new_level :
  fold_right Z.add 0 [-5; 5] = 0 /\
  yes_bids_at empty_state "KXBTC15M-X" = [] /\
  yes_bids_at (apply_yes_deltas empty_state "KXBTC15M-X" "0.53" [-5; 5]) "KXBTC15M-X"
    = [{| price := 0.53; quantity := 5 |}].
Proof. repeat split; vm_compute; reflexivity. Qed.

Lemma net_zero_deltas_restore_level_witness :
  let st := Client.process_orderbook_update empty_state (two_level_snapshot "KXBTC15M-X") in
  levels_at 0.47 (side_bids_at st "KXBTC15M-X" "NO") = [{| price := 0.47; quantity := 60 |}] /\
  levels_at 0.47 (side_bids_at (apply_side_deltas apply_delta st "KXBTC15M-X" "0.47" "NO"
                                  [5; -65; 60]) "KXBTC15M-X" "NO") =
    levels_at 0.47 (side_bids_at st "KXBTC15M-X" "NO") /\
  levels_at 0.47 (side_bids_at (apply_side_deltas Client.process_orderbook_delta st "KXBTC15M-X"
                                  "0.47" "NO" [5; -65; 60]) "KXBTC15M-X" "NO") =
    levels_at 0.47 (side_bids_at st "KXBTC15M-X" "NO").
Proof.
  cbv zeta. split; [vm_compute; reflexivity|].
  apply (net_zero_deltas_restore_level _ _ _ _ 0.47 60);
    first [lia | vm_compute; reflexivity].
Defined.

(** A level within 1e-12 of [p] but not at exactly [p] is not restored:
    -5 then +5 remove it and create a level at the parsed price. *)
Lemma near_price_level_not_restored :
  let st := {| tracked_markets := ∅;
               orderbooks := {[ "KXBTC15M-X"%string :=
                 {| market_ticker := "KXBTC15M-X";
                    yes_bids := [{| price := 0.5300000000000001; quantity := 5 |}];
                    yes_asks := []; no_bids := []; no_asks := [] |} ]} |} in
  (length (levels_at 0.53 (side_bids_at st "KXBTC15M-X" "yes")) <= 1)%nat /\
  levels_at 0.53 (side_bids_at st "KXBTC15M-X" "yes")
    = [{| price := 0.5300000000000001; quantity := 5 |}] /\
  levels_at 0.53 (side_bids_at (apply_side_deltas apply_delta st "KXBTC15M-X" "0.53" "yes"
                                  [-5; 5]) "KXBTC15M-X" "yes")
    = [{| price := 0.53; quantity := 5 |}] /\
  (0.5300000000000001 =? 0.53)%float = false.
Proof.
  cbv zeta. split; [apply Nat.leb_le; vm_compute; reflexivity|].
  repeat split; vm_compute; reflexivity.
Qed.

Lemma saturating_delta_keeps_i64_max_witness :
  update_levels [{| price := 0.53; quantity := I64_MAX |}] 0.53 5
  = [{| price := 0.53; quantity := I64_MAX |}].
Proof.
  assert (Hp : position (price_matches 0.53) [{| price := 0.53; quantity := I64_MAX |}]
               = Some 0%nat) by (vm_compute; reflexivity).
  assert (Hl : [{| price := 0.53; quantity := I64_MAX |}] !! 0%nat
               = Some {| price := 0.53; quantity := I64_MAX |}) by reflexivity.
  assert (Hq : quantity {| price := 0.53; quantity := I64_MAX |} = I64_MAX) by reflexivity.
  assert (Hd : 0 < 5) by lia.
  exact (proj1 (saturating_delta_keeps_i64_max _ _ _ _ _ Hp Hl Hq Hd)).
Defined.

End BookProofs.

(* ===================================================================== *)
(** * Proofs: the event processor and the Kalshi client *)
Module CoordinatorProofs.
Import Book Coordinator BookProofs.

Lemma record_kalshi_change_kalshi c ob now utc :
  kalshi (record_kalshi_change c ob now utc) = kalshi c.
Proof.
  unfold record_kalshi_change.
  destruct (best (yes_asks ob)), (best (no_asks ob)), (best (yes_bids ob)),
    (best (no_bids ob)); try reflexivity.
  case_bool_decide; reflexivity.
Qed.

Lemma record_kalshi_change_monitors c ob now utc :
  active_monitors (record_kalshi_change c ob now utc) = active_monitors c.
Proof.
  unfold record_kalshi_change.
  destruct (best (yes_asks ob)), (best (no_asks ob)), (best (yes_bids ob)),
    (best (no_bids ob)); try reflexivity.
  case_bool_decide; reflexivity.
Qed.

Lemma refresh_single_derived b : derived_single (refresh_single b).
Proof.
  split; intros x rest H; simpl in *; rewrite H; reflexivity.
Qed.

Lemma handle_orderbook_update_book c ob now utc :
  market_ticker ob ∈ tracked_markets (kalshi c) ->
  exists b, orderbooks (kalshi (handle_orderbook_update c ob now utc)) !! market_ticker ob = Some b /\
    derived_single b /\ no_bids b = sort_by cmp_desc (no_bids ob) /\
    yes_bids b = sort_by cmp_desc (yes_bids ob).
Proof.
  intros Ht. unfold handle_orderbook_update. rewrite bool_decide_eq_true_2 by exact Ht.
  unfold apply_snapshot. rewrite bool_decide_eq_true_2 by exact Ht. simpl.
  rewrite lookup_insert. case_decide; [|congruence].
  rewrite record_kalshi_change_kalshi. simpl. rewrite lookup_insert. case_decide; [|congruence].
  eexists. split; [reflexivity|]. split; [apply refresh_single_derived|]. auto.
Qed.

Lemma handle_orderbook_delta_book c d now utc p :
  F64.parse (d_price_dollars d) = Some p ->
  exists b, orderbooks (kalshi (handle_orderbook_delta c d now utc)) !! d_market_ticker d = Some b /\
    derived_single b.
Proof.
  intros Hp. unfold handle_orderbook_delta. rewrite Hp.
  unfold apply_delta. rewrite Hp. simpl.
  rewrite lookup_insert. case_decide; [|congruence].
  rewrite record_kalshi_change_kalshi. simpl. rewrite lookup_insert. case_decide; [|congruence].
  eexists. split; [reflexivity|]. apply refresh_single_derived.
Qed.

Lemma client_update_book st ob :
  exists b, orderbooks (Client.process_orderbook_update st ob) !! market_ticker ob = Some b /\
    length (yes_asks b) = length (no_bids b) /\ length (no_asks b) = length (yes_bids b).
Proof.
  unfold Client.process_orderbook_update. simpl.
  rewrite lookup_insert. case_decide; [|congruence].
  eexists. split; [reflexivity|]. simpl.
  rewrite !sort_by_length, !length_map. auto.
Qed.

Lemma client_delta_book st d p :
  F64.parse (d_price_dollars d) = Some p ->
  exists b, orderbooks (Client.process_orderbook_delta st d) !! d_market_ticker d = Some b /\
    length (yes_asks b) = length (no_bids b) /\ length (no_asks b) = length (yes_bids b).
Proof.
  intros Hp. unfold Client.process_orderbook_delta. rewrite Hp. simpl.
  rewrite lookup_insert. case_decide; [|congruence].
  eexists. split; [reflexivity|]. simpl.
  rewrite !sort_by_length, !length_map, !sort_by_length. auto.
Qed.

(** C9 (amended): a snapshot for a ticker outside the tracked markets
    leaves the coordinator unchanged, while a delta whose price string
    parses as an f64 leaves a book for its ticker, tracked or not (and
    does not change the tracked markets). *)
Theorem untracked_snapshot_ignored_delta_applied c ob d now utc p :
  market_ticker ob ∉ tracked_markets (kalshi c) ->
  F64.parse (d_price_dollars d) = Some p ->
  handle_orderbook_update c ob now utc = c /\
  is_Some (orderbooks (kalshi (handle_orderbook_delta c d now utc)) !! d_market_ticker d) /\
  tracked_markets (kalshi (handle_orderbook_delta c d now utc)) = tracked_markets (kalshi c).
Proof.
  intros Ht Hp. split; [|split].
  - unfold handle_orderbook_update. rewrite bool_decide_eq_false_2 by exact Ht. reflexivity.
  - destruct (handle_orderbook_delta_book c d now utc p Hp) as (b & Hb & _). rewrite Hb. eauto.
  - unfold handle_orderbook_delta. rewrite Hp.
    destruct (orderbooks _ !! _); [rewrite record_kalshi_change_kalshi|]; simpl;
      unfold apply_delta; rewrite Hp; reflexivity.
Qed.

Lemma skipped_alert_no_session c a now now' u :
  has_active_monitor (active_monitors c) now = true ->
  fst (handle_imbalance_alert c a now now' u) = c /\
  forall k, snd (handle_imbalance_alert c a now now' u) <> Started k.
Proof.
  intros H. unfold handle_imbalance_alert.
  destruct (elements _) as [|tk ?]; [split; [reflexivity|discriminate]|].
  destruct (orderbooks _ !! tk); [|split; [reflexivity|discriminate]].
  rewrite H. split; [reflexivity|discriminate].
Qed.

Lemma alert_step_invariant c a now now' u t :
  sessions_apart (active_monitors c) -> started_by (active_monitors c) t ->
  t <= now -> now <= now' ->
  sessions_apart (active_monitors (fst (handle_imbalance_alert c a now now' u))) /\
  started_by (active_monitors (fst (handle_imbalance_alert c a now now' u))) now'.
Proof.
  intros Hap Hby Ht Hn.
  assert (Hby' : started_by (active_monitors c) now').
  { eapply map_Forall_impl; [exact Hby|]. simpl. intros. lia. }
  unfold handle_imbalance_alert.
  destruct (elements _) as [|tk ?]; [auto|].
  destruct (orderbooks _ !! tk) as [book|]; [|auto].
  destruct (has_active_monitor _ _) eqn:Hg; [auto|]. simpl.
  unfold has_active_monitor in Hg. apply bool_decide_eq_false in Hg.
  assert (Hfar : forall k s, active_monitors c !! k = Some s -> FIFTEEN_SECONDS < now - s).
  { intros k s Hk. destruct (Z_lt_le_dec FIFTEEN_SECONDS (now - s)) as [?|Hle]; [auto|].
    exfalso. apply Hg. exists k, s. split; [exact Hk|]. unfold duration_since.
    unfold FIFTEEN_SECONDS in *. lia. }
  split.
  - unfold sessions_apart. apply map_Forall_lookup. intros k1 s1 H1.
    apply map_Forall_lookup. intros k2 s2 H2.
    apply lookup_insert_Some in H1, H2.
    destruct H1 as [[<- <-]|[Hk1 H1]], H2 as [[<- <-]|[Hk2 H2]]; [auto| | |].
    + right. specialize (Hfar _ _ H2). lia.
    + right. specialize (Hfar _ _ H1). lia.
    + apply map_Forall_lookup in Hap. specialize (Hap _ _ H1).
      apply map_Forall_lookup in Hap. exact (Hap _ _ H2).
  - apply map_Forall_lookup. intros k s Hk.
    apply lookup_insert_Some in Hk as [[_ <-]|[_ Hk]]; [lia|].
    apply map_Forall_lookup in Hby'. exact (Hby' _ _ Hk).
Qed.

Lemma handle_orderbook_update_monitors c ob now utc :
  active_monitors (handle_orderbook_update c ob now utc) = active_monitors c.
Proof.
  unfold handle_orderbook_update. case_bool_decide; [|reflexivity].
  destruct (orderbooks _ !! _); [rewrite record_kalshi_change_monitors|]; reflexivity.
Qed.

Lemma handle_orderbook_delta_monitors c d now utc :
  active_monitors (handle_orderbook_delta c d now utc) = active_monitors c.
Proof.
  unfold handle_orderbook_delta. destruct (F64.parse _); [|reflexivity].
  destruct (orderbooks _ !! _); [rewrite record_kalshi_change_monitors|]; reflexivity.
Qed.

Lemma run_invariant evs c t :
  sessions_apart (active_monitors c) -> started_by (active_monitors c) t ->
  clock_ok t evs = true ->
  sessions_apart (active_monitors (run c evs)).
Proof.
  revert c t. induction evs as [|ev evs IH]; intros c t Hap Hby Hclk; [exact Hap|].
  unfold run. simpl. fold (run (step c ev) evs).
  destruct ev as [a now now' u|key|ob now u|d now u]; simpl in Hclk.
  - apply andb_prop in Hclk as [Hclk Hrest]. apply andb_prop in Hclk as [H1 H2].
    apply Z.leb_le in H1, H2.
    destruct (alert_step_invariant c a now now' u t) as [Hap' Hby']; auto.
    eapply IH; eauto.
  - apply (IH _ t); simpl; auto.
    + apply map_Forall_lookup. intros k1 s1 H1. apply map_Forall_lookup. intros k2 s2 H2.
      apply lookup_delete_Some in H1 as [_ H1], H2 as [_ H2].
      apply map_Forall_lookup in Hap. specialize (Hap _ _ H1).
      apply map_Forall_lookup in Hap. exact (Hap _ _ H2).
    + apply map_Forall_lookup. intros k s Hk. apply lookup_delete_Some in Hk as [_ Hk].
      apply map_Forall_lookup in Hby. exact (Hby _ _ Hk).
  - apply (IH _ t); simpl; rewrite ?handle_orderbook_update_monitors; auto.
  - apply (IH _ t); simpl; rewrite ?handle_orderbook_delta_monitors; auto.
Qed.

(** C3 (amended): after a snapshot for a tracked market or a delta with a
    parsable price, the event processor's book has at most one derived ask
    per side: [yes_asks = [1 - best NO bid]] when there is a NO bid, and
    symmetrically.  The Kalshi client's own handlers instead mirror every
    opposing bid: its [yes_asks] has as many levels as [no_bids], and its
    [no_asks] as many as [yes_bids]. *)
Theorem derived_asks_after_book_events c ob d now utc p st :
  market_ticker ob ∈ tracked_markets (kalshi c) ->
  F64.parse (d_price_dollars d) = Some p ->
  (exists b, orderbooks (kalshi (handle_orderbook_update c ob now utc)) !! market_ticker ob
             = Some b /\ derived_single b) /\
  (exists b, orderbooks (kalshi (handle_orderbook_delta c d now utc)) !! d_market_ticker d
             = Some b /\ derived_single b) /\
  (exists b, orderbooks (Client.process_orderbook_update st ob) !! market_ticker ob = Some b /\
     length (yes_asks b) = length (no_bids b) /\ length (no_asks b) = length (yes_bids b)) /\
  (exists b, orderbooks (Client.process_orderbook_delta st d) !! d_market_ticker d = Some b /\
     length (yes_asks b) = length (no_bids b) /\ length (no_asks b) = length (yes_bids b)).
Proof.
  intros Ht Hp. split; [|split; [|split]].
  - destruct (handle_orderbook_update_book c ob now utc Ht) as (b & Hb & Hd & _). eauto.
  - exact (handle_orderbook_delta_book c d now utc p Hp).
  - apply client_update_book.
  - exact (client_delta_book st d p Hp).
Qed.

Lemma derived_asks_after_book_events_witness :
  exists b, orderbooks (kalshi (handle_orderbook_update example_coordinator
                                  (two_level_snapshot "KXBTC15M-X") 0 0)) !! "KXBTC15M-X"%string
            = Some b /\ derived_single b.
Proof.
  assert (Ht : market_ticker (two_level_snapshot "KXBTC15M-X")
               ∈ tracked_markets (kalshi example_coordinator))
    by (apply (bool_decide_unpack _); vm_compute; reflexivity).
  assert (Hp : F64.parse (d_price_dollars (yes_delta "KXBTC15M-X" "0.53" 5)) = Some 0.53%float)
    by (vm_compute; reflexivity).
  destruct (derived_asks_after_book_events example_coordinator _ _ 0 0 _ empty_state Ht Hp)
    as [H _].
  exact H.
Defined.

(** The Kalshi client, given a snapshot with two NO bids, derives two YES
    asks, not one. *)
Lemma client_snapshot_mirrors_all_levels :
  option_map (fun b => (length (no_bids b), length (yes_asks b)))
    (orderbooks (Client.process_orderbook_update empty_state (two_level_snapshot "KXBTC15M-X"))
       !! "KXBTC15M-X"%string) = Some (2%nat, 2%nat).
Proof. vm_compute. reflexivity. Qed.

(** C4 (amended): an alert checked while some session started at most
    15 s earlier is skipped and starts no session; and along any run whose
    instants are non-decreasing, any two sessions present at the same time
    were started more than 15 s apart.  The gate compares processing
    instants, not the alerts' [detected_time]s, and a session leaves the
    map only when its timer task runs. *)
Theorem alert_gate_keeps_sessions_apart c evs t0 :
  sessions_apart (active_monitors c) ->
  started_by (active_monitors c) t0 ->
  clock_ok t0 evs = true ->
  sessions_apart (active_monitors (run c evs)) /\
  (forall a now now' u, has_active_monitor (active_monitors c) now = true ->
     fst (handle_imbalance_alert c a now now' u) = c /\
     forall k, snd (handle_imbalance_alert c a now now' u) <> Started k).
Proof.
  intros Hap Hby Hclk. split.
  - exact (run_invariant evs c t0 Hap Hby Hclk).
  - intros a now now' u H. apply skipped_alert_no_session. exact H.
Qed.

Lemma alert_gate_keeps_sessions_apart_witness :
  sessions_apart (active_monitors
    (run example_coordinator
       [EvAlert (alert_at 1700000000000000) 0 0 1700000000000000;
        EvAlert (alert_at 1700000014000000) 15001000000 15001000000 1700000015001000])).
Proof.
  assert (Hap : sessions_apart (active_monitors example_coordinator))
    by (apply (bool_decide_unpack _); vm_compute; reflexivity).
  assert (Hby : started_by (active_monitors example_coordinator) 0)
    by (apply (bool_decide_unpack _); vm_compute; reflexivity).
  apply (alert_gate_keeps_sessions_apart _ _ 0 Hap Hby). vm_compute. reflexivity.
Defined.

(** Two alerts detected 14 s apart: the second is checked 15.001 s after
    the first session started, before that session's timer task has run,
    so both sessions are in the map at once. *)
Lemma alerts_14s_apart_two_sessions :
  alert_at 1700000014000000 <> alert_at 1700000000000000 /\
  1700000014000000 - 1700000000000000 < 15000000 /\
  map_to_list (active_monitors
    (run example_coordinator
       [EvAlert (alert_at 1700000000000000) 0 0 1700000000000000;
        EvAlert (alert_at 1700000014000000) 15001000000 15001000000 1700000015001000]))
  = [("BTCUSDT_1700000014"%string, 15001000000); ("BTCUSDT_1700000000"%string, 0)].
Proof.
  split; [intros H; injection H; lia|]. split; [lia|].
  vm_compute. reflexivity.
Qed.

Lemma untracked_snapshot_ignored_delta_applied_witness :
  handle_orderbook_update example_coordinator (two_level_snapshot "KXETH15M-Y") 0 0
    = example_coordinator /\
  is_Some (orderbooks (kalshi (handle_orderbook_delta example_coordinator
                                 (yes_delta "KXETH15M-Y" "0.53" 5) 0 0)) !! "KXETH15M-Y"%string).
Proof.
  assert (Ht : market_ticker (two_level_snapshot "KXETH15M-Y")
               ∉ tracked_markets (kalshi example_coordinator))
    by (apply (bool_decide_unpack _); vm_compute; reflexivity).
  assert (Hp : F64.parse (d_price_dollars (yes_delta "KXETH15M-Y" "0.53" 5)) = Some 0.53%float)
    by (vm_compute; reflexivity).
  destruct (untracked_snapshot_ignored_delta_applied example_coordinator _ _ 0 0 _ Ht Hp)
    as (H1 & H2 & _).
  split; [exact H1|exact H2].
Defined.

(** A delta for an untracked ticker whose price string does not parse is
    dropped: no book appears for that ticker. *)
Lemma unparsable_delta_creates_no_book :
  orderbooks (kalshi (handle_orderbook_delta example_coordinator
                        (yes_delta "KXETH15M-Y" "abc" 5) 0 0)) !! "KXETH15M-Y"%string = None.
Proof. vm_compute. reflexivity. Qed.

End CoordinatorProofs.

(* ===================================================================== *)
(** * Further properties of the modelled code *)

Module BookExtra.
Import Book BookProofs.

Lemma update_levels_keeps_positive ls p d :
  Forall (fun l => 0 < quantity l) ls ->
  Forall (fun l => 0 < quantity l) (update_levels ls p d).
Proof.
  intros H. unfold update_levels.
  destruct (position _ _) as [idx|] eqn:Ep.
  - destruct (ls !! idx) as [l|] eqn:El; [|exact H].
    destruct (i64_saturating_add (quantity l) d <=? 0) eqn:Eq.
    + apply Forall_delete. exact H.
    + apply Forall_insert; [exact H|]. simpl. lia.
  - destruct (d >? 0) eqn:Ed; [|exact H].
    apply Forall_app; split; [exact H|]. constructor; [simpl; lia|constructor].
Qed.

Lemma price_matches_same_price p x q :
  price_matches p {| price := price x; quantity := q |} = price_matches p x.
Proof. reflexivity. Qed.

Lemma update_levels_other_levels ls p d :
  price_matches p {| price := p; quantity := 0 |} = true ->
  List.filter (fun l => negb (price_matches p l)) (update_levels ls p d) =
  List.filter (fun l => negb (price_matches p l)) ls.
Proof.
  intros Hpp. unfold update_levels.
  destruct (position (price_matches p) ls) as [idx|] eqn:Ep.
  - destruct (position_split _ _ _ Ep) as (pre & x & post & Els & Hlen & Hpre & Hx).
    assert (Hlk : ls !! idx = Some x)
      by (rewrite Els, <- Hlen; apply list_lookup_middle; auto).
    rewrite Hlk. rewrite Els, <- Hlen.
    destruct (_ <=? 0).
    + rewrite delete_middle, !List.filter_app. simpl. rewrite Hx. reflexivity.
    + rewrite <- (Nat.add_0_r (length pre)), insert_app_r. simpl.
      rewrite !List.filter_app. simpl. rewrite price_matches_same_price, Hx. reflexivity.
  - destruct (d >? 0); [|reflexivity].
    rewrite List.filter_app. simpl.
    rewrite (price_matches_price p d 0), Hpp. simpl. apply app_nil_r.
Qed.

Lemma update_levels_single_match ls p d :
  (length (levels_at p ls) <= 1)%nat ->
  (length (levels_at p (update_levels ls p d)) <= 1)%nat.
Proof.
  unfold levels_at, update_levels. intros Hl.
  destruct (position (price_matches p) ls) as [idx|] eqn:Ep.
  - destruct (position_split _ _ _ Ep) as (pre & x & post & Els & Hlen & Hpre & Hx).
    assert (Hlk : ls !! idx = Some x)
      by (rewrite Els, <- Hlen; apply list_lookup_middle; auto).
    rewrite Hlk. rewrite Els, List.filter_app, Hpre in Hl. simpl in Hl. rewrite Hx in Hl.
    simpl in Hl.
    assert (Hpost : List.filter (price_matches p) post = []).
    { destruct (List.filter (price_matches p) post); [reflexivity|simpl in Hl; lia]. }
    rewrite Els, <- Hlen.
    destruct (_ <=? 0).
    + rewrite delete_middle, List.filter_app, Hpre, Hpost. simpl. lia.
    + rewrite <- (Nat.add_0_r (length pre)), insert_app_r. simpl.
      rewrite List.filter_app, Hpre. simpl. rewrite price_matches_same_price, Hx, Hpost.
      simpl. lia.
  - destruct (d >? 0); [|exact Hl].
    rewrite List.filter_app, (position_none _ _ Ep). simpl.
    destruct (price_matches p _); simpl; lia.
Qed.

Lemma sort_by_forall {A} (P : A -> Prop) cmp l : Forall P l -> Forall P (sort_by cmp l).
Proof. intros H. eapply Permutation_Forall; [symmetry; apply sort_by_perm|exact H]. Qed.

(** X1: [handle_orderbook_delta] keeps every stored bid level positive: if all YES and NO bid levels of all stored books have a positive quantity, they still do after any delta (a level whose quantity falls to 0 or below is removed, and a missing level is only added for a positive delta). *)
Lemma apply_delta_bids_positive st d :
  map_Forall (fun _ b => Forall pos_level (yes_bids b) /\ Forall pos_level (no_bids b))
    (orderbooks st) ->
  map_Forall (fun _ b => Forall pos_level (yes_bids b) /\ Forall pos_level (no_bids b))
    (orderbooks (apply_delta st d)).
Proof.
  intros H. unfold apply_delta.
  destruct (F64.parse _) as [p|]; [|exact H]. simpl.
  apply map_Forall_insert_2; [|exact H].
  assert (He : Forall pos_level (yes_bids (default (empty_book (d_market_ticker d)) (orderbooks st !! d_market_ticker d))) /\
               Forall pos_level (no_bids (default (empty_book (d_market_ticker d)) (orderbooks st !! d_market_ticker d)))).
  { destruct (orderbooks st !! d_market_ticker d) eqn:E; simpl.
    - exact (H _ _ E).
    - split; constructor. }
  destruct He as [Hy Hn].
  case_decide; simpl; split; apply sort_by_forall; auto;
    apply update_levels_keeps_positive; auto.
Qed.

Lemma apply_delta_bids_positive_witness :
  map_Forall (fun _ b => Forall pos_level (yes_bids b) /\ Forall pos_level (no_bids b))
    (orderbooks (apply_delta (Client.process_orderbook_update empty_state
                                (two_level_snapshot "KXBTC15M-X"))
                             (yes_delta "KXBTC15M-X" "0.51" (-100)))).
Proof.
  apply apply_delta_bids_positive.
  unfold pos_level. apply (bool_decide_unpack _). vm_compute. reflexivity.
Defined.

(** X3: a delta changes only the book of its own market ticker: every other ticker's stored book, and the set of tracked markets, are left as they were. *)
Lemma apply_delta_ticker_only st d t :
  t <> d_market_ticker d ->
  orderbooks (apply_delta st d) !! t = orderbooks st !! t /\
  tracked_markets (apply_delta st d) = tracked_markets st.
Proof.
  intros Ht. unfold apply_delta. destruct (F64.parse _); [|auto]. simpl.
  split; [|reflexivity]. apply lookup_insert_ne. congruence.
Qed.

Lemma apply_delta_ticker_only_witness :
  orderbooks (apply_delta (Client.process_orderbook_update empty_state
                             (two_level_snapshot "KXBTC15M-X"))
                          (yes_delta "KXETH15M-Y" "0.51" 5)) !! "KXBTC15M-X"%string
  = orderbooks (Client.process_orderbook_update empty_state
                  (two_level_snapshot "KXBTC15M-X")) !! "KXBTC15M-X"%string.
Proof.
  apply apply_delta_ticker_only. discriminate.
Defined.

(** X4: the book-store part of [handle_orderbook_update] is idempotent: applying the same snapshot twice gives the same state as applying it once. *)
Lemma apply_snapshot_twice st ob :
  apply_snapshot (apply_snapshot st ob) ob = apply_snapshot st ob.
Proof.
  unfold apply_snapshot at 2. case_decide as Ht; [|reflexivity].
  unfold apply_snapshot. simpl. rewrite bool_decide_eq_true_2 by exact Ht.
  rewrite lookup_insert. case_decide; [|congruence]. simpl.
  rewrite insert_insert. case_decide; [|congruence]. reflexivity.
Qed.

(** X2: the same invariant for the Kalshi client's own [process_orderbook_delta]: positive bid quantities everywhere stay positive after any delta. *)
Lemma client_delta_bids_positive st d :
  map_Forall (fun _ b => Forall pos_level (yes_bids b) /\ Forall pos_level (no_bids b))
    (orderbooks st) ->
  map_Forall (fun _ b => Forall pos_level (yes_bids b) /\ Forall pos_level (no_bids b))
    (orderbooks (Client.process_orderbook_delta st d)).
Proof.
  intros H. unfold Client.process_orderbook_delta.
  destruct (F64.parse _) as [p|]; [|exact H]. simpl.
  apply map_Forall_insert_2; [|exact H].
  assert (He : Forall pos_level (yes_bids (default (empty_book (d_market_ticker d)) (orderbooks st !! d_market_ticker d))) /\
               Forall pos_level (no_bids (default (empty_book (d_market_ticker d)) (orderbooks st !! d_market_ticker d)))).
  { destruct (orderbooks st !! d_market_ticker d) eqn:E; simpl.
    - exact (H _ _ E).
    - split; constructor. }
  destruct He as [Hy Hn].
  case_decide; simpl; split; apply sort_by_forall, sort_by_forall; auto;
    apply update_levels_keeps_positive; auto.
Qed.

Lemma client_delta_bids_positive_witness :
  map_Forall (fun _ b => Forall pos_level (yes_bids b) /\ Forall pos_level (no_bids b))
    (orderbooks (Client.process_orderbook_delta (Client.process_orderbook_update empty_state
                                (two_level_snapshot "KXBTC15M-X"))
                             (yes_delta "KXBTC15M-X" "0.51" (-100)))).
Proof.
  apply client_delta_bids_positive.
  unfold pos_level. apply (bool_decide_unpack _). vm_compute. reflexivity.
Defined.

(** X5: the Kalshi client's [process_orderbook_update] is idempotent: applying the same snapshot twice gives the same state as applying it once. *)
Lemma client_update_twice st ob :
  Client.process_orderbook_update (Client.process_orderbook_update st ob) ob =
  Client.process_orderbook_update st ob.
Proof.
  unfold Client.process_orderbook_update at 1. simpl.
  rewrite lookup_insert. case_decide; [|congruence]. simpl.
  rewrite insert_insert. case_decide; [|congruence]. reflexivity.
Qed.

(** X6: a delta's side only matters through whether it lower-cases to "yes": in both delta handlers, any other side acts exactly like "no". *)
Lemma side_decides_delta st d :
  let side := if bool_decide (to_lowercase (d_side d) = "yes"%string) then "yes"%string else "no"%string in
  let d' := {| d_market_ticker := d_market_ticker d; d_price_dollars := d_price_dollars d;
               d_delta := d_delta d; d_side := side |} in
  apply_delta st d = apply_delta st d' /\
  Client.process_orderbook_delta st d = Client.process_orderbook_delta st d'.
Proof.
  simpl. unfold apply_delta, Client.process_orderbook_delta. simpl.
  case_decide as Hs.
  - rewrite (bool_decide_eq_true_2 (to_lowercase "yes" = "yes"%string)) by (vm_compute; reflexivity).
    split; reflexivity.
  - rewrite (bool_decide_eq_false_2 (to_lowercase "no" = "yes"%string)) by (vm_compute; discriminate).
    split; reflexivity.
Qed.

(** X7: a YES delta whose price string parses to a finite [p] (one within
    1e-12 of itself, the hypothesis [price_matches p {p, 0}]; NaN and
    +-inf are not) leaves the YES levels at other prices and all NO bids of
    that market unchanged up to order. *)
Lemma yes_delta_other_levels st t s p d :
  F64.parse s = Some p ->
  price_matches p {| price := p; quantity := 0 |} = true ->
  Permutation
    (List.filter (fun l => negb (price_matches p l)) (yes_bids_at (apply_delta st (yes_delta t s d)) t))
    (List.filter (fun l => negb (price_matches p l)) (yes_bids_at st t)) /\
  Permutation
    (default [] (no_bids <$> orderbooks (apply_delta st (yes_delta t s d)) !! t))
    (default [] (no_bids <$> orderbooks st !! t)).
Proof.
  intros Hs Hpp. split.
  - rewrite (yes_bids_after_delta _ _ _ _ _ Hs).
    rewrite <- (update_levels_other_levels (yes_bids_at st t) p d Hpp).
    apply filter_perm, sort_by_perm.
  - unfold apply_delta. simpl. rewrite Hs. simpl. rewrite lookup_insert.
    case_decide; [|congruence].
    simpl. etransitivity; [apply sort_by_perm|].
    destruct (orderbooks st !! t); simpl; reflexivity.
Qed.

Lemma yes_delta_other_levels_witness :
  Permutation
    (List.filter (fun l => negb (price_matches 0.51 l))
       (yes_bids_at (apply_delta (Client.process_orderbook_update empty_state
                                    (two_level_snapshot "KXBTC15M-X"))
                                 (yes_delta "KXBTC15M-X" "0.51" 7)) "KXBTC15M-X"))
    [{| price := 0.50; quantity := 80 |}].
Proof.
  destruct (yes_delta_other_levels (Client.process_orderbook_update empty_state
              (two_level_snapshot "KXBTC15M-X")) "KXBTC15M-X" "0.51" 0.51 7)
    as [H _]; [vm_compute; reflexivity | vm_compute; reflexivity |].
  exact H.
Defined.

(** X8: a YES delta at a parsable price keeps the YES side free of duplicates at that price: at most one level matching [p] before means at most one after. *)
Lemma yes_delta_single_level st t s p d :
  F64.parse s = Some p ->
  (length (levels_at p (yes_bids_at st t)) <= 1)%nat ->
  (length (levels_at p (yes_bids_at (apply_delta st (yes_delta t s d)) t)) <= 1)%nat.
Proof.
  intros Hs Hl. rewrite (yes_bids_after_delta _ _ _ _ _ Hs). unfold levels_at.
  rewrite (Permutation_length (filter_perm _ _ _ (sort_by_perm cmp_desc _))).
  apply update_levels_single_match. exact Hl.
Qed.

Lemma yes_delta_single_level_witness :
  (length (levels_at 0.51 (yes_bids_at (apply_delta (Client.process_orderbook_update empty_state
              (two_level_snapshot "KXBTC15M-X")) (yes_delta "KXBTC15M-X" "0.51" 7))
              "KXBTC15M-X")) <= 1)%nat.
Proof.
  apply (yes_delta_single_level _ _ _ 0.51); [vm_compute; reflexivity|].
  apply Nat.leb_le. vm_compute. reflexivity.
Defined.

End BookExtra.

Module LifecycleProofs.
Import Lifecycle.

(** X9: [handle_market_lifecycle] switches to the next market exactly when the message is about the current market and its event type is "determined" or "settled"; every other message (unparsable type, other market, other status) is ignored. *)
Lemma lifecycle_switch_iff cur et tk d :
  handle_market_lifecycle cur et tk d = SwitchMarket <->
  cur = Some tk /\ (et = "determined" \/ et = "settled").
Proof.
  unfold handle_market_lifecycle, EventType.from_str.
  destruct (String.eqb_spec et "created") as [->|N1]; [simpl|].
  { case_bool_decide; simpl; intuition congruence. }
  destruct (String.eqb_spec et "activated") as [->|N2]; [simpl|].
  { case_bool_decide; simpl; intuition congruence. }
  destruct (String.eqb_spec et "deactivated") as [->|N3]; [simpl|].
  { case_bool_decide; simpl; [case_bool_decide; simpl|]; intuition congruence. }
  destruct (String.eqb_spec et "close_date_updated") as [->|N4]; [simpl|].
  { case_bool_decide; simpl; intuition congruence. }
  destruct (String.eqb_spec et "determined") as [->|N5]; [simpl|].
  { case_bool_decide as Hc; simpl.
    - subst cur. rewrite bool_decide_true by reflexivity. intuition.
    - intuition congruence. }
  destruct (String.eqb_spec et "settled") as [->|N6]; [simpl|].
  { case_bool_decide as Hc; simpl.
    - subst cur. rewrite bool_decide_true by reflexivity. intuition.
    - intuition congruence. }
  intuition congruence.
Qed.

End LifecycleProofs.

Module SbeExtra.

Lemma byte_val_bound b : 0 <= byte_val b < 256.
Proof. unfold byte_val. destruct b; vm_compute; split; congruence. Qed.

(** X10: the eager decoder's [read_var_string8] (messages.rs) and the cursor's [read_var_string8] (utils.rs) agree on every input and non-negative position: same string, same new position, same error. *)
Lemma var_string8_agree data pos :
  0 <= pos ->
  Sbe.read_var_string8 {| Sbe.ic_data := data; Sbe.ic_pos := pos |} =
  match LazyDepth.read_var_string8 {| LazyDepth.sc_data := data; LazyDepth.sc_pos := pos |} with
  | Ok (s, c) => Ok (s, {| Sbe.ic_data := LazyDepth.sc_data c; Sbe.ic_pos := LazyDepth.sc_pos c |})
  | Err e => Err e
  end.
Proof.
  intros Hp.
  unfold Sbe.read_var_string8, LazyDepth.read_var_string8, LazyDepth.read_u8,
    LazyDepth.remaining, LazyDepth.sc_len. simpl.
  destruct (pos >=? Z.of_nat (length data)) eqn:E1.
  { replace (Z.max 0 (Z.of_nat (length data) - pos) <? 1) with true by lia. reflexivity. }
  replace (Z.max 0 (Z.of_nat (length data) - pos) <? 1) with false by lia.
  destruct (data !! Z.to_nat pos) as [b|] eqn:Eb;
    [|apply lookup_ge_None in Eb; lia].
  pose proof (drop_S _ _ _ Eb) as Hd.
  pose proof (byte_val_bound b) as Hb.
  unfold LazyDepth.read_bytes, LazyDepth.remaining, LazyDepth.sc_len. simpl.
  replace (Z.max 0 (Z.of_nat (length data) - pos) <? 1) with false by (symmetry; apply Z.ltb_ge; lia). simpl.
  rewrite Hd. simpl. rewrite Z.add_0_r.
  replace (Z.max 0 (Z.of_nat (length data) - (pos + 1)) <? byte_val b)
    with (pos + 1 + byte_val b >? Z.of_nat (length data)) by lia.
  destruct (pos + 1 + byte_val b >? Z.of_nat (length data)) eqn:E2; [reflexivity|].
  unfold Sbe.io_read_u8, Sbe.io_read. simpl. rewrite Hd. simpl.
  replace (Z.to_nat (pos + Z.of_nat 1)) with (S (Z.to_nat pos)) by lia.
  replace (Z.to_nat (pos + 1)) with (S (Z.to_nat pos)) by lia.
  rewrite length_drop.
  replace (length data - S (Z.to_nat pos) <? Z.to_nat (byte_val b))%nat with false
    by (symmetry; apply Nat.ltb_ge; lia).
  simpl.
  destruct (Sbe.utf8_valid _); [|reflexivity].
  unfold Sbe.set_position. simpl. repeat f_equal. lia.
Qed.

Lemma var_string8_agree_witness :
  Sbe.read_var_string8 {| Sbe.ic_data := Binance.symbol_bytes "BTCUSDT"; Sbe.ic_pos := 0 |} =
  Ok (String.list_byte_of_string "BTCUSDT",
      {| Sbe.ic_data := Binance.symbol_bytes "BTCUSDT"; Sbe.ic_pos := 8 |}).
Proof.
  rewrite var_string8_agree by lia. vm_compute. reflexivity.
Defined.

(** X11: the cursor's [read_var_string8] on a length byte [b] followed by [s] returns [s] and moves past it when [s] is valid UTF-8, and fails with a decode error otherwise, whatever surrounds the frame. *)
Lemma lazy_var_string8_frame pre b s post :
  byte_val b = Z.of_nat (length s) ->
  LazyDepth.read_var_string8
    {| LazyDepth.sc_data := pre ++ b :: s ++ post; LazyDepth.sc_pos := Z.of_nat (length pre) |} =
  if Sbe.utf8_valid s
  then Ok (s, {| LazyDepth.sc_data := pre ++ b :: s ++ post;
                 LazyDepth.sc_pos := Z.of_nat (length pre) + 1 + Z.of_nat (length s) |})
  else Err SbeDecode.
Proof.
  intros Hb.
  unfold LazyDepth.read_var_string8, LazyDepth.read_u8, LazyDepth.read_bytes,
    LazyDepth.remaining, LazyDepth.sc_len. simpl.
  rewrite length_app. simpl. rewrite length_app.
  replace (Z.max 0 (Z.of_nat (length pre + S (length s + length post)) - Z.of_nat (length pre)) <? 1)
    with false by (symmetry; apply Z.ltb_ge; lia). simpl.
  rewrite Nat2Z.id, drop_app_length. simpl. rewrite Z.add_0_r, Hb.
  rewrite length_app. simpl. rewrite length_app.
  replace (Z.max 0 (Z.of_nat (length pre + S (length s + length post)) - (Z.of_nat (length pre) + 1))
             <? Z.of_nat (length s)) with false by (symmetry; apply Z.ltb_ge; lia). simpl.
  replace (Z.to_nat (Z.of_nat (length pre) + 1)) with (length pre + 1)%nat by lia.
  rewrite drop_app_ge by lia. replace (length pre + 1 - length pre)%nat with 1%nat by lia.
  change (drop 1 (b :: s ++ post)) with (s ++ post). rewrite Nat2Z.id, take_app_length. reflexivity.
Qed.

Lemma lazy_var_string8_frame_witness :
  LazyDepth.read_var_string8
    {| LazyDepth.sc_data := [Byte.x00] ++ Byte.x03 :: String.list_byte_of_string "BTC" ++ [Byte.x00];
       LazyDepth.sc_pos := 1 |} =
  Ok (String.list_byte_of_string "BTC",
      {| LazyDepth.sc_data := [Byte.x00] ++ Byte.x03 :: String.list_byte_of_string "BTC" ++ [Byte.x00];
         LazyDepth.sc_pos := 5 |}).
Proof.
  change 1 with (Z.of_nat (length [Byte.x00])).
  rewrite (lazy_var_string8_frame [Byte.x00] Byte.x03 (String.list_byte_of_string "BTC") [Byte.x00])
    by (vm_compute; reflexivity).
  vm_compute. reflexivity.
Defined.

Import Sbe SbeMessages.

(** X12: [SbeDecoder::decode] rejects frames shorter than the 8-byte header and template ids outside 10000..10003, and every message it returns was decoded from the body after the header by the decoder matching the template id. *)
Lemma sbe_decode_routes data :
  ((length data < HEADER_SIZE)%nat -> sbe_decode data = Err SbeDecode) /\
  (~ (10000 <= le_value (take 2 (drop 2 data)) <= 10003) -> sbe_decode data = Err SbeDecode) /\
  (forall m, sbe_decode data = Ok m ->
     (HEADER_SIZE <= length data)%nat /\
     match m with
     | MTrade e => le_value (take 2 (drop 2 data)) = TEMPLATE_TRADES_STREAM /\
                   decode_trade (drop HEADER_SIZE data) = Ok e
     | MBestBidAsk e => le_value (take 2 (drop 2 data)) = TEMPLATE_BEST_BID_ASK_STREAM /\
                   decode_best_bid_ask (drop HEADER_SIZE data) = Ok e
     | MDepthSnapshot e => le_value (take 2 (drop 2 data)) = TEMPLATE_DEPTH_SNAPSHOT_STREAM /\
                   decode_depth_snapshot (drop HEADER_SIZE data) = Ok e
     | MDepthDiff e => le_value (take 2 (drop 2 data)) = TEMPLATE_DEPTH_DIFF_STREAM /\
                   decode_depth_diff (drop HEADER_SIZE data) = Ok e
     end).
Proof.
  unfold sbe_decode, decode_header.
  destruct (length data <? HEADER_SIZE)%nat eqn:El.
  { apply Nat.ltb_lt in El. split; [reflexivity|]. split; [reflexivity|].
    intros m H; discriminate. }
  apply Nat.ltb_ge in El. simpl.
  unfold from_template_id, TEMPLATE_TRADES_STREAM, TEMPLATE_BEST_BID_ASK_STREAM,
    TEMPLATE_DEPTH_SNAPSHOT_STREAM, TEMPLATE_DEPTH_DIFF_STREAM.
  set (tid := le_value (take 2 (drop 2 data))).
  split; [lia|]. split.
  - intros Hr.
    destruct (tid =? 10000) eqn:E0; [lia|].
    destruct (tid =? 10001) eqn:E1; [lia|].
    destruct (tid =? 10003) eqn:E3; [lia|].
    destruct (tid =? 10002) eqn:E2; [lia|]. reflexivity.
  - intros m Hm. split; [exact El|].
    destruct (tid =? 10000) eqn:E0;
      [apply Z.eqb_eq in E0; unfold map_result in Hm;
       destruct (decode_trade _) eqn:D; simpl in Hm; [|discriminate];
       injection Hm as <-; auto|].
    destruct (tid =? 10001) eqn:E1;
      [apply Z.eqb_eq in E1; unfold map_result in Hm;
       destruct (decode_best_bid_ask _) eqn:D; simpl in Hm; [|discriminate];
       injection Hm as <-; auto|].
    destruct (tid =? 10003) eqn:E3;
      [apply Z.eqb_eq in E3; unfold map_result in Hm;
       destruct (decode_depth_diff _) eqn:D; simpl in Hm; [|discriminate];
       injection Hm as <-; auto|].
    destruct (tid =? 10002) eqn:E2;
      [apply Z.eqb_eq in E2; unfold map_result in Hm;
       destruct (decode_depth_snapshot _) eqn:D; simpl in Hm; [|discriminate];
       injection Hm as <-; auto|].
    discriminate.
Qed.

Import TradeProofs DepthProofs.

Lemma io_read_i8_spec c v c' :
  io_read_i8 c = Ok (v, c') -> ic_pos c' = ic_pos c + 1 /\ ic_data c' = ic_data c.
Proof.
  unfold io_read_i8. intros H.
  apply (io_read_le_spec 1 (fun bs => to_signed 8 (le_value bs))) in H. tauto.
Qed.

Lemma io_read_group_size16_spec c bl n c' :
  Sbe.read_group_size16 c = Ok (bl, n, c') ->
  n = le_value (take 2 (drop (Z.to_nat (ic_pos c + 2)) (ic_data c))) /\
  ic_pos c' = ic_pos c + 4 /\ ic_data c' = ic_data c.
Proof.
  unfold Sbe.read_group_size16.
  destruct (io_read_u16 c) as [[x c1]|] eqn:E1; simpl; [|discriminate].
  destruct (io_read_u16 c1) as [[y c2]|] eqn:E2; simpl; [|discriminate].
  intros H; injection H as <- <- <-.
  apply (io_read_le_spec 2 le_value) in E1 as (_ & P1 & D1).
  apply (io_read_le_spec 2 le_value) in E2 as (-> & P2 & D2).
  rewrite P2, D2, P1, D1. simpl. repeat split; lia.
Qed.

Lemma decode_levels_spec n c pe qe ls c' :
  decode_levels n c pe qe = Ok (ls, c') ->
  length ls = n /\ ic_pos c' = ic_pos c + 16 * Z.of_nat n /\ ic_data c' = ic_data c.
Proof.
  revert c ls. induction n as [|n IH]; intros c ls H; simpl in H.
  - injection H as <- <-. simpl. split; [reflexivity|]. split; [lia|reflexivity].
  - unfold decode_depth_level in H.
    destruct (io_read_i64 c) as [[pm c1]|] eqn:E1; simpl in H; [|discriminate].
    destruct (io_read_i64 c1) as [[qm c2]|] eqn:E2; simpl in H; [|discriminate].
    destruct (decode_levels n c2 pe qe) as [[ls' c3]|] eqn:E3; simpl in H; [|discriminate].
    injection H as <- <-.
    apply io_read_i64_spec in E1 as (_ & P1 & D1).
    apply io_read_i64_spec in E2 as (_ & P2 & D2).
    apply IH in E3 as (L3 & P3 & D3).
    simpl. split; [lia|]. split; [lia|congruence].
Qed.

(** X13: a decoded depth snapshot has exactly as many bids and asks as the two group headers declare (the 16-bit counts at offset 20 and right after the 16-byte bid entries). *)
Lemma depth_snapshot_level_counts data ev :
  decode_depth_snapshot data = Ok ev ->
  let nb := le_value (take 2 (drop 20 data)) in
  length (ds_bids ev) = Z.to_nat nb /\
  length (ds_asks ev) = Z.to_nat (le_value (take 2 (drop (Z.to_nat (24 + 16 * nb)) data))).
Proof.
  unfold decode_depth_snapshot.
  destruct (io_read_i64 _) as [[t c1]|] eqn:E1; simpl; [|discriminate].
  destruct (io_read_i64 c1) as [[u c2]|] eqn:E2; simpl; [|discriminate].
  destruct (io_read_i8 c2) as [[pe c3]|] eqn:E3; simpl; [|discriminate].
  destruct (io_read_i8 c3) as [[qe c4]|] eqn:E4; simpl; [|discriminate].
  destruct (Sbe.read_group_size16 c4) as [[[bl nb] c5]|] eqn:E5; simpl; [|discriminate].
  destruct (decode_levels _ c5 pe qe) as [[bids c6]|] eqn:E6; simpl; [|discriminate].
  destruct (Sbe.read_group_size16 c6) as [[[al na] c7]|] eqn:E7; simpl; [|discriminate].
  destruct (decode_levels _ c7 pe qe) as [[asks c8]|] eqn:E8; simpl; [|discriminate].
  destruct (read_var_string8 c8) as [[sym c9]|]; simpl; [|discriminate].
  intros H; injection H as <-. simpl.
  apply io_read_i64_spec in E1 as (_ & P1 & D1).
  apply io_read_i64_spec in E2 as (_ & P2 & D2).
  apply io_read_i8_spec in E3 as (P3 & D3).
  apply io_read_i8_spec in E4 as (P4 & D4).
  apply io_read_group_size16_spec in E5 as (N5 & P5 & D5).
  apply decode_levels_spec in E6 as (L6 & P6 & D6).
  apply io_read_group_size16_spec in E7 as (N7 & P7 & D7).
  apply decode_levels_spec in E8 as (L8 & P8 & D8).
  simpl in *.
  assert (Hp4 : ic_pos c4 = 18) by lia.
  assert (Hd4 : ic_data c4 = data) by congruence.
  rewrite Hp4, Hd4 in N5. simpl in N5.
  rewrite L6, L8, N5. split; [reflexivity|].
  change (Z.to_nat (18 + 2)) with 20%nat in N5.
  assert (Hnb : 0 <= nb) by (rewrite N5; apply le_value_nonneg).
  rewrite N7, D6, D5, Hd4, P6, P5, Hp4, Z2Nat.id by exact Hnb.
  rewrite <- N5. do 4 f_equal. lia.
Qed.

Lemma depth_snapshot_level_counts_witness :
  exists ev, decode_depth_snapshot Binance.depth_example = Ok ev /\
    length (ds_bids ev) = 5%nat /\ length (ds_asks ev) = 1%nat.
Proof.
  destruct (decode_depth_snapshot Binance.depth_example) as [ev|e] eqn:E; [|vm_compute in E; discriminate].
  exists ev. split; [reflexivity|].
  pose proof (depth_snapshot_level_counts _ _ E) as H. cbv zeta in H.
  destruct H as [H1 H2]. rewrite H1, H2. split; vm_compute; reflexivity.
Defined.

(** X14: a decoded depth diff has exactly as many bids and asks as the two group headers declare (the counts at offset 28 and right after the 16-byte bid entries). *)
Lemma depth_diff_level_counts data ev :
  decode_depth_diff data = Ok ev ->
  let nb := le_value (take 2 (drop 28 data)) in
  length (dd_bids ev) = Z.to_nat nb /\
  length (dd_asks ev) = Z.to_nat (le_value (take 2 (drop (Z.to_nat (32 + 16 * nb)) data))).
Proof.
  unfold decode_depth_diff.
  destruct (io_read_i64 _) as [[t c1]|] eqn:E1; simpl; [|discriminate].
  destruct (io_read_i64 c1) as [[u c2]|] eqn:E2; simpl; [|discriminate].
  destruct (io_read_i64 c2) as [[w c2']|] eqn:E2'; simpl; [|discriminate].
  destruct (io_read_i8 c2') as [[pe c3]|] eqn:E3; simpl; [|discriminate].
  destruct (io_read_i8 c3) as [[qe c4]|] eqn:E4; simpl; [|discriminate].
  destruct (Sbe.read_group_size16 c4) as [[[bl nb] c5]|] eqn:E5; simpl; [|discriminate].
  destruct (decode_levels _ c5 pe qe) as [[bids c6]|] eqn:E6; simpl; [|discriminate].
  destruct (Sbe.read_group_size16 c6) as [[[al na] c7]|] eqn:E7; simpl; [|discriminate].
  destruct (decode_levels _ c7 pe qe) as [[asks c8]|] eqn:E8; simpl; [|discriminate].
  destruct (read_var_string8 c8) as [[sym c9]|]; simpl; [|discriminate].
  intros H; injection H as <-. simpl.
  apply io_read_i64_spec in E1 as (_ & P1 & D1).
  apply io_read_i64_spec in E2 as (_ & P2 & D2).
  apply io_read_i64_spec in E2' as (_ & P2' & D2').
  apply io_read_i8_spec in E3 as (P3 & D3).
  apply io_read_i8_spec in E4 as (P4 & D4).
  apply io_read_group_size16_spec in E5 as (N5 & P5 & D5).
  apply decode_levels_spec in E6 as (L6 & P6 & D6).
  apply io_read_group_size16_spec in E7 as (N7 & P7 & D7).
  apply decode_levels_spec in E8 as (L8 & P8 & D8).
  simpl in *.
  assert (Hp4 : ic_pos c4 = 26) by lia.
  assert (Hd4 : ic_data c4 = data) by congruence.
  rewrite Hp4, Hd4 in N5. simpl in N5.
  rewrite L6, L8, N5. split; [reflexivity|].
  change (Z.to_nat (26 + 2)) with 28%nat in N5.
  assert (Hnb : 0 <= nb) by (rewrite N5; apply le_value_nonneg).
  rewrite N7, D6, D5, Hd4, P6, P5, Hp4, Z2Nat.id by exact Hnb.
  rewrite <- N5. do 4 f_equal. lia.
Qed.

Lemma depth_diff_level_counts_witness :
  exists ev, decode_depth_diff (le_bytes 8 7 ++ Binance.depth_body 16 [(5000000, 1000); (4999900, 2000)]
                                                16 [(5000100, 3000)] "BTCUSDT") = Ok ev /\
    length (dd_bids ev) = 2%nat /\ length (dd_asks ev) = 1%nat.
Proof.
  destruct (decode_depth_diff (le_bytes 8 7 ++ Binance.depth_body 16 [(5000000, 1000); (4999900, 2000)]
                                                16 [(5000100, 3000)] "BTCUSDT"))
    as [ev|e] eqn:E; [|vm_compute in E; discriminate].
  exists ev. split; [reflexivity|].
  pose proof (depth_diff_level_counts _ _ E) as H. cbv zeta in H.
  destruct H as [H1 H2]. rewrite H1, H2. split; vm_compute; reflexivity.
Defined.

Lemma decode_last_trade_some data_len bl n pe qe c o c' :
  decode_last_trade data_len bl n pe qe c = Ok (o, c') ->
  (n > 0 -> exists t, o = Some t) /\ (n <= 0 -> o = None).
Proof.
  unfold decode_last_trade. destruct (n >? 0) eqn:En.
  - apply Z.gtb_lt in En. intros H. split; [|lia]. intros _.
    revert H. unfold bind. repeat case_match; intros Hr; try discriminate;
      injection Hr as <- _; eauto.
  - rewrite Z.gtb_ltb in En. apply Z.ltb_ge in En. intros H. injection H as <- _. split; [lia|auto].
Qed.

(** X15: a decoded trade event carries no trade when the frame's group count is 0, and exactly one trade otherwise. *)
Lemma trade_event_last_only data ev :
  decode_trade data = Ok ev ->
  let n := le_value (take 4 (drop 20 data)) in
  (n = 0 -> te_trades ev = []) /\ (n <> 0 -> length (te_trades ev) = 1%nat).
Proof.
  unfold decode_trade.
  destruct (io_read_i64 _) as [[t c1]|] eqn:E1; simpl; [|discriminate].
  destruct (io_read_i64 c1) as [[u c2]|] eqn:E2; simpl; [|discriminate].
  destruct (io_read_i8 c2) as [[pe c3]|] eqn:E3; simpl; [|discriminate].
  destruct (io_read_i8 c3) as [[qe c4]|] eqn:E4; simpl; [|discriminate].
  destruct (read_group_size c4) as [[[bl nt] c5]|] eqn:E5; simpl; [|discriminate].
  destruct (decode_last_trade _ bl nt pe qe c5) as [[o c6]|] eqn:E6; simpl; [|discriminate].
  destruct (usize_sub _ _); simpl; [|discriminate].
  destruct (_ <? 1); [discriminate|].
  destruct (read_var_string8 c6) as [[sym c7]|]; simpl; [|discriminate].
  intros H; injection H as <-. simpl.
  apply io_read_i64_spec in E1 as (_ & P1 & D1).
  apply io_read_i64_spec in E2 as (_ & P2 & D2).
  apply io_read_i8_spec in E3 as (P3 & D3).
  apply io_read_i8_spec in E4 as (P4 & D4).
  apply read_group_size_spec in E5 as (_ & N5 & _).
  apply decode_last_trade_some in E6 as [S1 S2].
  simpl in *.
  assert (Hp4 : ic_pos c4 = 18) by lia.
  assert (Hd4 : ic_data c4 = data) by congruence.
  rewrite Hp4, Hd4 in N5. change (Z.to_nat (18 + 2)) with 20%nat in N5.
  rewrite <- N5.
  assert (0 <= nt) by (rewrite N5; apply le_value_nonneg).
  split; intros Hn.
  - rewrite S2 by lia. reflexivity.
  - destruct S1 as [tr ->]; [lia|]. reflexivity.
Qed.

Lemma trade_event_last_only_witness :
  exists ev, decode_trade Binance.trade_example = Ok ev /\ length (te_trades ev) = 1%nat.
Proof.
  destruct (decode_trade Binance.trade_example) as [ev|e] eqn:E; [|vm_compute in E; discriminate].
  exists ev. split; [reflexivity|].
  pose proof (trade_event_last_only _ _ E) as H. cbv zeta in H.
  apply (proj2 H). vm_compute. discriminate.
Defined.

Lemma lazy_read_bytes_bounds c len bs c' :
  0 <= LazyDepth.sc_pos c <= LazyDepth.sc_len c -> 0 <= len ->
  LazyDepth.read_bytes c len = Ok (bs, c') ->
  bs = take (Z.to_nat len) (drop (Z.to_nat (LazyDepth.sc_pos c)) (LazyDepth.sc_data c)) /\
  Z.of_nat (length bs) = len /\ LazyDepth.sc_data c' = LazyDepth.sc_data c /\
  LazyDepth.sc_pos c' = LazyDepth.sc_pos c + len /\ LazyDepth.sc_pos c' <= LazyDepth.sc_len c'.
Proof.
  intros Hp Hl. unfold LazyDepth.read_bytes.
  destruct (LazyDepth.remaining c <? len) eqn:E; [discriminate|].
  intros H; injection H as <- <-. apply Z.ltb_ge in E.
  unfold LazyDepth.remaining, LazyDepth.sc_len in *. simpl.
  rewrite length_take, length_drop. repeat split; lia.
Qed.

(** X16: from a position inside the buffer, every successful cursor read (bytes, little-endian integers, u8, var-string) returns bytes of the buffer, advances the position by the width read and stays inside the buffer; u8 values are below 256 and strings are valid UTF-8. *)
Lemma lazy_cursor_reads_in_bounds c :
  0 <= LazyDepth.sc_pos c <= LazyDepth.sc_len c ->
  (forall len bs c', 0 <= len -> LazyDepth.read_bytes c len = Ok (bs, c') ->
     bs = take (Z.to_nat len) (drop (Z.to_nat (LazyDepth.sc_pos c)) (LazyDepth.sc_data c)) /\
     LazyDepth.sc_data c' = LazyDepth.sc_data c /\
     LazyDepth.sc_pos c' = LazyDepth.sc_pos c + len /\ LazyDepth.sc_pos c' <= LazyDepth.sc_len c') /\
  (forall w v c', 0 <= w -> LazyDepth.read_le w c = Ok (v, c') ->
     LazyDepth.sc_data c' = LazyDepth.sc_data c /\
     LazyDepth.sc_pos c' = LazyDepth.sc_pos c + w /\ LazyDepth.sc_pos c' <= LazyDepth.sc_len c') /\
  (forall v c', LazyDepth.read_u8 c = Ok (v, c') ->
     0 <= v < 256 /\ LazyDepth.sc_data c' = LazyDepth.sc_data c /\
     LazyDepth.sc_pos c' = LazyDepth.sc_pos c + 1 /\ LazyDepth.sc_pos c' <= LazyDepth.sc_len c') /\
  (forall s c', LazyDepth.read_var_string8 c = Ok (s, c') ->
     utf8_valid s = true /\ LazyDepth.sc_data c' = LazyDepth.sc_data c /\
     LazyDepth.sc_pos c' = LazyDepth.sc_pos c + 1 + Z.of_nat (length s) /\
     LazyDepth.sc_pos c' <= LazyDepth.sc_len c').
Proof.
  intros Hc.
  assert (Hb : forall len bs c', 0 <= len -> LazyDepth.read_bytes c len = Ok (bs, c') ->
     bs = take (Z.to_nat len) (drop (Z.to_nat (LazyDepth.sc_pos c)) (LazyDepth.sc_data c)) /\
     LazyDepth.sc_data c' = LazyDepth.sc_data c /\
     LazyDepth.sc_pos c' = LazyDepth.sc_pos c + len /\ LazyDepth.sc_pos c' <= LazyDepth.sc_len c').
  { intros len bs c' Hl H. apply lazy_read_bytes_bounds in H as (? & ? & ? & ? & ?); auto. }
  assert (Hu : forall v c', LazyDepth.read_u8 c = Ok (v, c') ->
     0 <= v < 256 /\ LazyDepth.sc_data c' = LazyDepth.sc_data c /\
     LazyDepth.sc_pos c' = LazyDepth.sc_pos c + 1 /\ LazyDepth.sc_pos c' <= LazyDepth.sc_len c').
  { intros v c' H. unfold LazyDepth.read_u8 in H.
    destruct (LazyDepth.remaining c <? 1); [discriminate|].
    destruct (LazyDepth.read_bytes c 1) as [[bs c1]|] eqn:E; simpl in H; [|discriminate].
    injection H as <- <-.
    apply lazy_read_bytes_bounds in E as (_ & L & D & P & B); [|exact Hc|lia].
    destruct bs as [|b [|b' bs]]; simpl in L; try lia.
    simpl. pose proof (byte_val_bound b). repeat split; first [exact D | lia]. }
  split; [exact Hb|]. split; [|split; [exact Hu|]].
  - intros w v c' Hw. unfold LazyDepth.read_le.
    destruct (_ <? _)%nat eqn:E; [discriminate|]. intros H; injection H as <- <-.
    apply Nat.ltb_ge in E. rewrite length_drop in E.
    unfold LazyDepth.sc_len in *. simpl. repeat split; first [reflexivity | lia].
  - intros s c' H. unfold LazyDepth.read_var_string8 in H.
    destruct (LazyDepth.read_u8 c) as [[len c1]|] eqn:E1; simpl in H; [|discriminate].
    destruct (Hu len c1 eq_refl) as (Hlen & D1 & P1 & B1).
    destruct (LazyDepth.read_bytes c1 len) as [[bs c2]|] eqn:E2; simpl in H; [|discriminate].
    apply lazy_read_bytes_bounds in E2 as (_ & L2 & D2 & P2 & B2); [|lia|lia].
    destruct (utf8_valid bs) eqn:U; [|discriminate]. injection H as <- <-.
    unfold LazyDepth.sc_len in *. rewrite D2, D1. rewrite D2, D1 in B2. repeat split; first [exact U | reflexivity | lia].
Qed.

Lemma lazy_cursor_reads_in_bounds_witness :
  exists s c', LazyDepth.read_var_string8
                 {| LazyDepth.sc_data := Binance.symbol_bytes "BTCUSDT"; LazyDepth.sc_pos := 0 |} = Ok (s, c') /\
    utf8_valid s = true /\ LazyDepth.sc_pos c' = 8 /\ LazyDepth.sc_pos c' <= LazyDepth.sc_len c'.
Proof.
  destruct (LazyDepth.read_var_string8
              {| LazyDepth.sc_data := Binance.symbol_bytes "BTCUSDT"; LazyDepth.sc_pos := 0 |})
    as [[s c']|e] eqn:E; [|vm_compute in E; discriminate].
  exists s, c'. split; [reflexivity|].
  assert (Hc : 0 <= LazyDepth.sc_pos {| LazyDepth.sc_data := Binance.symbol_bytes "BTCUSDT"; LazyDepth.sc_pos := 0 |}
               <= LazyDepth.sc_len {| LazyDepth.sc_data := Binance.symbol_bytes "BTCUSDT"; LazyDepth.sc_pos := 0 |})
    by (vm_compute; split; discriminate).
  destruct (lazy_cursor_reads_in_bounds _ Hc) as (_ & _ & _ & H).
  destruct (H s c' E) as (U & _ & P & B). split; [exact U|]. split; [|exact B].
  rewrite P. pose proof E as E'. vm_compute in E'. injection E' as <- _. reflexivity.
Defined.

Import Binance.

(** X17: when every read of the SBE reader loop succeeds, the loop forwards the decoded messages in order (skipping control frames) and keeps waiting; when the price channel is closed nothing is forwarded. *)
Lemma run_sbe_forwards_in_order reads os :
  Forall2 (fun m o => recv_sbe m = Ok o) reads os ->
  run_sbe true reads = (concat (map option_to_list os), Waiting) /\
  fst (run_sbe false reads) = [].
Proof.
  induction 1 as [|m o reads os Hm _ [IH1 IH2]]; [auto|].
  simpl. rewrite Hm. destruct o as [msg|]; simpl.
  - rewrite IH1. auto.
  - auto.
Qed.

Lemma run_sbe_forwards_in_order_witness :
  exists m, sbe_decode (header 10000 ++ trade_example) = Ok m /\
  run_sbe true [Some Pong; Some (Binary (header 10000 ++ trade_example)); Some (Text "x")]
  = ([m], Waiting).
Proof.
  destruct (sbe_decode (header 10000 ++ trade_example)) as [m|e] eqn:E;
    [|vm_compute in E; discriminate].
  exists m. split; [reflexivity|].
  destruct (run_sbe_forwards_in_order
              [Some Pong; Some (Binary (header 10000 ++ trade_example)); Some (Text "x")]
              [None; Some m; None]) as [H _].
  - constructor; [reflexivity|]. constructor; [unfold recv_sbe; rewrite E; reflexivity|].
    constructor; [reflexivity|constructor].
  - exact H.
Defined.

End SbeExtra.

Module CoordinatorExtra.
Import Book Coordinator.

Lemma foldl_pointwise {V} (f : gmap string V -> string -> gmap string V)
    (g : option V -> option V) keys m k :
  (forall m k, f m k !! k = g (m !! k)) ->
  (forall m k k', k <> k' -> f m k !! k' = m !! k') ->
  NoDup keys ->
  foldl f m keys !! k = if bool_decide (k ∈ keys) then g (m !! k) else m !! k.
Proof.
  intros Hs Ho Hnd. revert m. induction Hnd as [|x xs Hx Hnd IH]; intros m; cbn [foldl].
  - rewrite bool_decide_eq_false_2 by set_solver. reflexivity.
  - rewrite IH. destruct (decide (k = x)) as [->|Hne].
    + rewrite bool_decide_eq_false_2 by exact Hx.
      rewrite bool_decide_eq_true_2 by set_solver. apply Hs.
    + rewrite Ho by congruence.
      destruct (decide (k ∈ xs)).
      * rewrite !bool_decide_eq_true_2 by set_solver. reflexivity.
      * rewrite !bool_decide_eq_false_2 by set_solver. reflexivity.
Qed.

Lemma active_keys_spec (mon : gmap string Z) now k :
  k ∈ map fst (filter (fun '(_, start) => duration_since now start <= FIFTEEN_SECONDS)
                      (map_to_list mon)) <->
  exists s, mon !! k = Some s /\ duration_since now s <= FIFTEEN_SECONDS.
Proof.
  rewrite list_elem_of_fmap. split.
  - intros ([k' s] & -> & Hin). apply list_elem_of_filter in Hin as [Hd Hin].
    apply elem_of_map_to_list in Hin. simpl. eauto.
  - intros (s & Hk & Hd). exists (k, s). split; [reflexivity|].
    apply list_elem_of_filter. split; [exact Hd|]. apply elem_of_map_to_list. exact Hk.
Qed.

Lemma active_keys_nodup (mon : gmap string Z) now :
  NoDup (map fst (filter (fun '(_, start) => duration_since now start <= FIFTEEN_SECONDS)
                         (map_to_list mon))).
Proof.
  assert (Hm : forall l : list (string * Z), map fst l = fst <$> l)
    by (induction l as [|a l IH]; [reflexivity|]; cbn [map]; rewrite IH; reflexivity).
  rewrite Hm. eapply sublist_NoDup; [apply (NoDup_fst_map_to_list mon)|].
  apply fmap_sublist, sublist_filter.
Qed.

Lemma record_kalshi_change_at c ob now utc k :
  kalshi_changes (record_kalshi_change c ob now utc) !! k =
  match best (yes_asks ob), best (no_asks ob), best (yes_bids ob), best (no_bids ob),
        kalshi_changes c !! k, active_monitors c !! k with
  | Some ya, Some na, Some yb, Some nb, Some obs, Some s =>
      if bool_decide (duration_since now s <= FIFTEEN_SECONDS) && fresh_after obs ya na yb nb
      then Some (obs ++ [(utc, ya, na, yb, nb)]) else Some obs
  | _, _, _, _, r, _ => r
  end.
Proof.
  unfold record_kalshi_change.
  destruct (best (yes_asks ob)) as [ya|]; [|destruct (kalshi_changes c !! k); reflexivity].
  destruct (best (no_asks ob)) as [na|]; [|destruct (kalshi_changes c !! k); reflexivity].
  destruct (best (yes_bids ob)) as [yb|]; [|destruct (kalshi_changes c !! k); reflexivity].
  destruct (best (no_bids ob)) as [nb|]; [|destruct (kalshi_changes c !! k); reflexivity].
  destruct (decide (active_monitors c = ∅)) as [Hempty|Hne].
  { rewrite bool_decide_eq_true_2 by exact Hempty.
    rewrite Hempty, lookup_empty. destruct (kalshi_changes c !! k); reflexivity. }
  rewrite bool_decide_eq_false_2 by exact Hne. simpl.
  rewrite (foldl_pointwise _
    (fun o => match o with
              | Some obs => Some (if fresh_after obs ya na yb nb
                                  then obs ++ [(utc, ya, na, yb, nb)] else obs)
              | None => None end));
    [| | | apply active_keys_nodup].
  - case_bool_decide as Hin.
    + apply active_keys_spec in Hin as (s & Hs & Hd). rewrite Hs.
      rewrite bool_decide_eq_true_2 by exact Hd. simpl.
      destruct (kalshi_changes c !! k); [|reflexivity].
      destruct (fresh_after _ _ _ _ _); reflexivity.
    + destruct (kalshi_changes c !! k) as [obs|]; [|reflexivity].
      destruct (active_monitors c !! k) as [s|] eqn:Hs; [|reflexivity].
      rewrite bool_decide_eq_false_2; [reflexivity|].
      intros Hd. apply Hin, active_keys_spec. eauto.
  - intros m k0. destruct (m !! k0) as [obs|] eqn:E; [|exact E].
    cbv beta iota. unfold fresh_after, Observation in *. destruct (last obs) as [[[[[t la] lna] lb] lnb]|] eqn:El;
      [destruct (moved la ya || moved lna na || moved lb yb || moved lnb nb)|];
      rewrite ?lookup_insert; try (case_decide; [|congruence]); auto.
  - intros m k0 k' Hkk. destruct (m !! k0) as [obs|] eqn:E; [|reflexivity].
    repeat case_match; rewrite ?lookup_insert_ne by exact Hkk; reflexivity.
Qed.

Lemma record_kalshi_change_cases c ob now utc k :
  (kalshi_changes c !! k = None ->
     kalshi_changes (record_kalshi_change c ob now utc) !! k = None) /\
  (forall obs : list Observation, kalshi_changes c !! k = Some obs ->
     kalshi_changes (record_kalshi_change c ob now utc) !! k = Some obs \/
     exists s ya na yb nb,
       active_monitors c !! k = Some s /\ duration_since now s <= FIFTEEN_SECONDS /\
       best (yes_asks ob) = Some ya /\ best (no_asks ob) = Some na /\
       best (yes_bids ob) = Some yb /\ best (no_bids ob) = Some nb /\
       (obs = [] \/ exists t la lna lb lnb, last obs = Some (t, la, lna, lb, lnb) /\
          (moved la ya || moved lna na || moved lb yb || moved lnb nb) = true) /\
       kalshi_changes (record_kalshi_change c ob now utc) !! k =
         Some (obs ++ [(utc, ya, na, yb, nb)])).
Proof.
  split.
  - intros Hk. rewrite record_kalshi_change_at, Hk. repeat case_match; reflexivity.
  - intros obs Hk. rewrite !record_kalshi_change_at, Hk.
    destruct (best (yes_asks ob)) as [ya|] eqn:E1; [|auto].
    destruct (best (no_asks ob)) as [na|] eqn:E2; [|auto].
    destruct (best (yes_bids ob)) as [yb|] eqn:E3; [|auto].
    destruct (best (no_bids ob)) as [nb|] eqn:E4; [|auto].
    destruct (active_monitors c !! k) as [s|] eqn:Es; [|auto].
    destruct (bool_decide (duration_since now s <= FIFTEEN_SECONDS)) eqn:Ed; [|auto].
    destruct (fresh_after obs ya na yb nb) eqn:Ef; [|auto].
    right. apply bool_decide_eq_true_1 in Ed.
    exists s, ya, na, yb, nb.
    do 6 (split; [first [assumption | reflexivity]|]). split; [|reflexivity].
    unfold fresh_after in Ef. unfold Observation in *.
    destruct (last obs) as [[[[[t la] lna] lb] lnb]|] eqn:El.
    + right. eauto 10.
    + left. destruct obs as [|o obs _] using rev_ind; [reflexivity|].
      rewrite last_snoc in El. discriminate.
Qed.

(** X18: [record_kalshi_change] never creates a session's change list and changes an existing one only by appending the current four best prices, and only when its session is at most 15 s old, all four prices exist and the list is empty or one price moved by more than 1e-6. *)
Lemma record_kalshi_change_appends c ob now utc k :
  (kalshi_changes c !! k = None ->
     kalshi_changes (record_kalshi_change c ob now utc) !! k = None) /\
  (forall obs : list Observation, kalshi_changes c !! k = Some obs ->
     kalshi_changes (record_kalshi_change c ob now utc) !! k = Some obs \/
     exists s ya na yb nb,
       active_monitors c !! k = Some s /\ duration_since now s <= FIFTEEN_SECONDS /\
       best (yes_asks ob) = Some ya /\ best (no_asks ob) = Some na /\
       best (yes_bids ob) = Some yb /\ best (no_bids ob) = Some nb /\
       (obs = [] \/ exists t la lna lb lnb, last obs = Some (t, la, lna, lb, lnb) /\
          (moved la ya || moved lna na || moved lb yb || moved lnb nb) = true) /\
       kalshi_changes (record_kalshi_change c ob now utc) !! k =
         Some (obs ++ [(utc, ya, na, yb, nb)])).
Proof. exact (record_kalshi_change_cases c ob now utc k). Qed.

(** X19: conversely, when all four best prices exist, the session is at most 15 s old and its list is empty or one price moved by more than 1e-6, [record_kalshi_change] appends the observation to it. *)
Lemma record_kalshi_change_records c ob now utc k s (obs : list Observation) ya na yb nb :
  best (yes_asks ob) = Some ya -> best (no_asks ob) = Some na ->
  best (yes_bids ob) = Some yb -> best (no_bids ob) = Some nb ->
  active_monitors c !! k = Some s -> duration_since now s <= FIFTEEN_SECONDS ->
  kalshi_changes c !! k = Some obs ->
  (obs = [] \/ exists t la lna lb lnb, last obs = Some (t, la, lna, lb, lnb) /\
     (moved la ya || moved lna na || moved lb yb || moved lnb nb) = true) ->
  kalshi_changes (record_kalshi_change c ob now utc) !! k =
    Some (obs ++ [(utc, ya, na, yb, nb)]).
Proof.
  intros E1 E2 E3 E4 Es Hd Hk Hf.
  rewrite record_kalshi_change_at, E1, E2, E3, E4, Hk, Es.
  rewrite bool_decide_eq_true_2 by exact Hd. simpl.
  replace (fresh_after obs ya na yb nb) with true; [reflexivity|].
  unfold fresh_after. unfold Observation in *.
  destruct Hf as [->|(t & la & lna & lb & lnb & El & Hm)]; [reflexivity|].
  rewrite El. symmetry. exact Hm.
Qed.

Lemma record_kalshi_change_records_witness :
  kalshi_changes (record_kalshi_change
      (fst (handle_imbalance_alert example_coordinator (alert_at 0) 0 0 0))
      (refresh_single {| market_ticker := "KXBTC15M-X";
                         yes_bids := [{| price := 0.52; quantity := 100 |}]; yes_asks := [];
                         no_bids := [{| price := 0.47; quantity := 80 |}]; no_asks := [] |})
      1 7) !! "BTCUSDT_0"%string
  = Some [(0, PrimFloat.sub 1 0.47, PrimFloat.sub 1 0.51, 0.51%float, 0.47%float);
          (7, PrimFloat.sub 1 0.47, PrimFloat.sub 1 0.52, 0.52%float, 0.47%float)].
Proof.
  apply (record_kalshi_change_records _ _ _ _ _ 0
           [(0, PrimFloat.sub 1 0.47, PrimFloat.sub 1 0.51, 0.51%float, 0.47%float)]);
    try (vm_compute; reflexivity).
  - unfold duration_since, FIFTEEN_SECONDS. lia.
  - right. do 5 eexists. split; vm_compute; reflexivity.
Defined.

Lemma record_kalshi_change_prefix c ob now utc k (obs : list Observation) :
  kalshi_changes c !! k = Some obs ->
  exists obs', kalshi_changes (record_kalshi_change c ob now utc) !! k = Some obs' /\
    obs `prefix_of` obs'.
Proof.
  intros Hk. destruct (record_kalshi_change_cases c ob now utc k) as [_ H].
  destruct (H obs Hk) as [E|(s & ya & na & yb & nb & _ & _ & _ & _ & _ & _ & _ & E)].
  - exists obs. split; [exact E|reflexivity].
  - exists (obs ++ [(utc, ya, na, yb, nb)]). split; [exact E|]. eexists; reflexivity.
Qed.

Lemma alert_changes_other c a now now' utc k :
  snd (handle_imbalance_alert c a now now' utc) <> Started k ->
  kalshi_changes (fst (handle_imbalance_alert c a now now' utc)) !! k = kalshi_changes c !! k.
Proof.
  unfold handle_imbalance_alert.
  destruct (elements (tracked_markets (kalshi c))) as [|t _]; [auto|].
  destruct (orderbooks (kalshi c) !! t) as [b|]; [|auto].
  destruct (has_active_monitor _ _); [auto|]. simpl. intros Hne.
  rewrite lookup_insert_ne; [reflexivity|]. congruence.
Qed.

(** X20: no event processor step ever removes or rewrites recorded observations: a session's change list is only extended, unless an alert starts a new session under the same key. *)
Lemma step_changes_extend c ev k (obs : list Observation) :
  kalshi_changes c !! k = Some obs ->
  exists obs', kalshi_changes (step c ev) !! k = Some obs' /\
    (obs `prefix_of` obs' \/
     exists a now now' utc, ev = EvAlert a now now' utc /\
       snd (handle_imbalance_alert c a now now' utc) = Started k).
Proof.
  intros Hk. destruct ev as [a now now' utc|key|ob now utc|d now utc]; simpl.
  - assert (Hd : {snd (handle_imbalance_alert c a now now' utc) = Started k} +
                 {snd (handle_imbalance_alert c a now now' utc) <> Started k}).
    { destruct (snd (handle_imbalance_alert c a now now' utc)) as [| | |key];
        [right; discriminate..|].
      destruct (decide (key = k)); [left|right]; congruence. }
    destruct Hd as [Hs|Hs].
    + destruct (kalshi_changes (fst (handle_imbalance_alert c a now now' utc)) !! k) as [o|] eqn:E.
      * exists o. split; [reflexivity|]. right. exists a, now, now', utc. auto.
      * exfalso. revert Hs E. unfold handle_imbalance_alert.
        destruct (elements (tracked_markets (kalshi c))) as [|t _]; [simpl; congruence|].
        destruct (orderbooks (kalshi c) !! t) as [b|]; [|simpl; congruence].
        destruct (has_active_monitor _ _); simpl; [congruence|].
        intros Hs. injection Hs as <-. rewrite lookup_insert. case_decide; congruence.
    + rewrite alert_changes_other by exact Hs. exists obs. split; [exact Hk|]. left. reflexivity.
  - exists obs. split; [exact Hk|]. left. reflexivity.
  - unfold handle_orderbook_update. case_decide; [|exists obs; split; [exact Hk|left; reflexivity]].
    destruct (orderbooks _ !! _) as [b|]; [|exists obs; split; [exact Hk|left; reflexivity]].
    destruct (record_kalshi_change_prefix
      {| kalshi := apply_snapshot (kalshi c) ob; active_monitors := active_monitors c;
         kalshi_changes := kalshi_changes c |} b now utc k obs Hk) as (o & E & P).
    eauto.
  - unfold handle_orderbook_delta. destruct (F64.parse _); [|exists obs; split; [exact Hk|left; reflexivity]].
    destruct (orderbooks _ !! _) as [b|]; [|exists obs; split; [exact Hk|left; reflexivity]].
    destruct (record_kalshi_change_prefix
      {| kalshi := apply_delta (kalshi c) d; active_monitors := active_monitors c;
         kalshi_changes := kalshi_changes c |} b now utc k obs Hk) as (o & E & P).
    eauto.
Qed.

Lemma step_changes_extend_witness :
  exists obs', kalshi_changes (step (fst (handle_imbalance_alert example_coordinator (alert_at 0) 0 0 0))
                                    (EvDelta (yes_delta "KXBTC15M-X" "0.52" 10) 1 7))
                 !! "BTCUSDT_0"%string = Some obs' /\
    [(0, PrimFloat.sub 1 0.47, PrimFloat.sub 1 0.51, 0.51%float, 0.47%float)] `prefix_of` obs'.
Proof.
  destruct (step_changes_extend (fst (handle_imbalance_alert example_coordinator (alert_at 0) 0 0 0))
              (EvDelta (yes_delta "KXBTC15M-X" "0.52" 10) 1 7) "BTCUSDT_0"
              [(0, PrimFloat.sub 1 0.47, PrimFloat.sub 1 0.51, 0.51%float, 0.47%float)])
    as (obs' & E & [P | (a & now & now' & utc & Hev & _)]).
  - vm_compute. reflexivity.
  - exists obs'. split; [exact E | exact P].
  - discriminate Hev.
Defined.

End CoordinatorExtra.
